(** * sveltosctl: the techsupport reconciler and its scheduling helpers

    A shallow embedding of
    - [internal/commands/techsupport_reconciler.go] (the reverse index kept
      by [updateMaps]/[cleanMaps], the cluster event predicates and the
      reconciler entry point), and
    - [internal/commands/reconciler_utils.go] (the cron based scheduler, the
      status fold and the deletion path).

    Go maps and the [libsveltosset.Set] type become stdpp finite maps and
    finite sets, instants are integers counting nanoseconds, nullable
    pointers are options, and calls into collaborators (object store,
    collector, cron parser) take their answer from an environment record
    and are logged in a trace. *)

From stdpp Require Import gmap strings list fin_maps.
From Stdlib Require Import ZArith QArith Lia.
From Equations Require Import Equations.

#[local] Set Warnings "-clear-no-such-hyp".

Local Open Scope string_scope.
Local Open Scope Z_scope.

(** ** Kubernetes object plumbing *)

(** [corev1.ObjectReference], restricted to the four fields the reconciler
    ever fills in. Go compares these structs field by field when they are
    used as map keys. *)
Record ObjectReference := mkObjectReference {
  Namespace : string;
  Name : string;
  Kind : string;
  APIVersion : string
}.

#[global] Instance ObjectReference_eq_dec : EqDecision ObjectReference.
Proof. solve_decision. Defined.

#[global] Instance ObjectReference_countable : Countable ObjectReference.
Proof.
  refine (inj_countable'
    (fun r => (Namespace r, Name r, Kind r, APIVersion r))
    (fun t => match t with (ns, n, k, v) => mkObjectReference ns n k v end) _).
  by intros [].
Defined.

(** [schema.GroupVersionKind]. *)
Record GroupVersionKind := mkGVK {
  gvkGroup : string;
  gvkVersion : string;
  gvkKind : string
}.

(** [GroupVersionKind.String]: [Group + "/" + Version + ", Kind=" + Kind]. *)
Definition gvkString (g : GroupVersionKind) : string :=
  gvkGroup g +:+ "/" +:+ gvkVersion g +:+ ", Kind=" +:+ gvkKind g.

(** [runtime.APIVersionInternal]. *)
Definition APIVersionInternal : string := "__internal".

(** Instants ([time.Time], [metav1.Time]) as nanoseconds on the absolute
    time line; durations ([time.Duration]) are 64-bit nanosecond counts. *)
Abbreviation Time := Z (only parsing).
Abbreviation Duration := Z (only parsing).

(** The label selector of a request. The code stores it and hands it to
    the selector parser, nothing more. *)
Record Selector := mkSelector {
  MatchLabels : gmap string string
}.

(** [utilsv1beta1.CollectionStatus]. *)
Inductive CollectionStatus :=
| CollectionStatusCollected
| CollectionStatusInProgress
| CollectionStatusFailed.

#[global] Instance CollectionStatus_eq_dec : EqDecision CollectionStatus.
Proof. solve_decision. Defined.

Record ObjectMeta := mkObjectMeta {
  omNamespace : string;
  omName : string;
  CreationTimestamp : Time;
  DeletionTimestamp : option Time;
  Finalizers : list string
}.

Record TechsupportSpec := mkTechsupportSpec {
  ClusterSelector : Selector;
  Schedule : string;
  StartingDeadlineSeconds : option Z;
  Storage : string
}.

Record TechsupportStatus := mkTechsupportStatus {
  NextScheduleTime : option Time;
  LastRunTime : option Time;
  LastRunStatus : option CollectionStatus;
  FailureMessage : string;
  MatchingClusterRefs : list ObjectReference
}.

(** [utilsv1beta1.Techsupport]. The type information an object carries
    ([TypeMeta]) is kept in its parsed form, as a [GroupVersionKind]. *)
Record Techsupport := mkTechsupport {
  TypeMeta : GroupVersionKind;
  Meta : ObjectMeta;
  Spec : TechsupportSpec;
  Status : TechsupportStatus
}.

Definition withTypeMeta (g : GroupVersionKind) (t : Techsupport) : Techsupport :=
  mkTechsupport g (Meta t) (Spec t) (Status t).

Definition withMeta (m : ObjectMeta) (t : Techsupport) : Techsupport :=
  mkTechsupport (TypeMeta t) m (Spec t) (Status t).

Definition withStatus (s : TechsupportStatus) (t : Techsupport) : Techsupport :=
  mkTechsupport (TypeMeta t) (Meta t) (Spec t) s.

(** ** The reverse index *)

(** [libsveltosset.Set]: a set of object references. [Difference] hands
    back a slice; its order is the iteration order of a Go map and nothing
    below depends on it. *)
Module libsveltosset.
Abbreviation t := (gset ObjectReference) (only parsing).

Definition Insert (entry : ObjectReference) (s : t) : t := s ∪ {[entry]}.

Definition Erase (entry : ObjectReference) (s : t) : t := s ∖ {[entry]}.

Definition Has (entry : ObjectReference) (s : t) : bool := bool_decide (entry ∈ s).

Definition Difference (s b : t) : list ObjectReference := elements (s ∖ b).

End libsveltosset.

(** The package level maps guarded by [mux]. [techsupportMap] is the
    request-to-targets map, [clusterMap] the target-to-requests map and
    [techsupports] remembers each request's selector. *)
Record Maps := mkMaps {
  techsupportMap : gmap ObjectReference (gset ObjectReference);
  clusterMap : gmap ObjectReference (gset ObjectReference);
  techsupports : gmap ObjectReference Selector
}.

Definition emptyMaps : Maps := mkMaps ∅ ∅ ∅.

(** [addTypeInformationToObject]: the first kind the scheme knows for the
    object that has a name and a proper version is written into the object.
    [gvks] is what [scheme.ObjectKinds] returned; when that call fails the
    code panics, which [kindsOf] below accounts for. *)
Fixpoint firstUsableKind (gvks : list GroupVersionKind) : option GroupVersionKind :=
  match gvks with
  | [] => None
  | gvk :: rest =>
      if bool_decide (gvkKind gvk = EmptyString) then firstUsableKind rest
      else if bool_decide (gvkVersion gvk = EmptyString)
              || bool_decide (gvkVersion gvk = APIVersionInternal)
      then firstUsableKind rest
      else Some gvk
  end.

Definition addTypeInformationToObject (gvks : list GroupVersionKind)
    (obj : Techsupport) : Techsupport :=
  match firstUsableKind gvks with
  | Some gvk => withTypeMeta gvk obj
  | None => obj
  end.

(** [getKeyFromObject]: the key of a request in the maps. The object leaves
    with its type information filled in. *)
Definition getKeyFromObject (gvks : list GroupVersionKind) (obj : Techsupport)
    : Techsupport * ObjectReference :=
  let obj := addTypeInformationToObject gvks obj in
  (obj, mkObjectReference (omNamespace (Meta obj)) (omName (Meta obj))
          (gvkKind (TypeMeta obj)) (gvkString (TypeMeta obj))).

(** [getClusterMapForEntry]: the consumer set of a target, created empty on
    first use. *)
Definition getClusterMapForEntry (entry : ObjectReference)
    (cm : gmap ObjectReference (gset ObjectReference))
    : gset ObjectReference * gmap ObjectReference (gset ObjectReference) :=
  match cm !! entry with
  | Some s => (s, cm)
  | None => (∅, <[entry := ∅]> cm)
  end.

(** One iteration of the two loops of [updateMaps]: fetch the consumer set
    of [clusterInfo] and change it in place. *)
Definition onClusterEntry (f : gset ObjectReference -> gset ObjectReference)
    (cm : gmap ObjectReference (gset ObjectReference))
    (clusterInfo : ObjectReference)
    : gmap ObjectReference (gset ObjectReference) :=
  let '(s, cm) := getClusterMapForEntry clusterInfo cm in
  <[clusterInfo := f s]> cm.

(** The conversion every loop of [updateMaps] applies to a matching
    reference before using it as a key. *)
Definition clusterInfoOf (cluster : ObjectReference) : ObjectReference :=
  mkObjectReference (Namespace cluster) (Name cluster) (Kind cluster)
    (APIVersion cluster).

Definition updateMaps (gvks : list GroupVersionKind) (techsupport : Techsupport)
    (m : Maps) : Techsupport * Maps :=
  let currentClusters :=
    foldl (fun s cluster => libsveltosset.Insert (clusterInfoOf cluster) s)
      ∅ (MatchingClusterRefs (Status techsupport)) in
  let '(techsupport, techsupportInfo) := getKeyFromObject gvks techsupport in
  let toBeRemoved :=
    match techsupportMap m !! techsupportInfo with
    | Some v => libsveltosset.Difference v currentClusters
    | None => []
    end in
  let cm :=
    foldl (fun cm cluster =>
             onClusterEntry (libsveltosset.Insert techsupportInfo) cm
               (clusterInfoOf cluster))
      (clusterMap m) (MatchingClusterRefs (Status techsupport)) in
  let cm :=
    foldl (onClusterEntry (libsveltosset.Erase techsupportInfo)) cm toBeRemoved in
  (techsupport,
   mkMaps (<[techsupportInfo := currentClusters]> (techsupportMap m))
          cm
          (<[techsupportInfo := ClusterSelector (Spec techsupport)]> (techsupports m))).

Definition cleanMaps (gvks : list GroupVersionKind) (techsupport : Techsupport)
    (m : Maps) : Techsupport * Maps :=
  let '(techsupport, techsupportInfo) := getKeyFromObject gvks techsupport in
  (techsupport,
   mkMaps (delete techsupportInfo (techsupportMap m))
          (libsveltosset.Erase techsupportInfo <$> clusterMap m)
          (delete techsupportInfo (techsupports m))).

(** The calls the reconciler makes on the index, and a run of them from the
    empty maps the process starts with. *)
Inductive IndexCall :=
| Update (techsupport : Techsupport)
| Remove (techsupport : Techsupport).

Definition indexCall (gvks : list GroupVersionKind) (m : Maps) (c : IndexCall) : Maps :=
  match c with
  | Update techsupport => (updateMaps gvks techsupport m).2
  | Remove techsupport => (cleanMaps gvks techsupport m).2
  end.

Definition runIndexCalls (gvks : list GroupVersionKind) (calls : list IndexCall) : Maps :=
  foldl (indexCall gvks) emptyMaps calls.

(** Reading the two maps as relations: a missing key is an empty set. *)
Definition targetsOf (m : Maps) (R : ObjectReference) : gset ObjectReference :=
  default ∅ (techsupportMap m !! R).

Definition consumersOf (m : Maps) (T : ObjectReference) : gset ObjectReference :=
  default ∅ (clusterMap m !! T).

Definition indexConsistent (m : Maps) : Prop :=
  ∀ R T, T ∈ targetsOf m R ↔ R ∈ consumersOf m T.

Definition noStaleConsumers (m : Maps) : Prop :=
  ∀ T, (∀ R, T ∉ targetsOf m R) → ∀ R, R ∉ consumersOf m T.

(** ** Time *)

(** [time.Second] and the bounds of [time.Duration]. *)
Definition Second : Duration := 1000000000.

Definition minDuration : Duration := - 2 ^ 63.

Definition maxDuration : Duration := 2 ^ 63 - 1.

(** Arithmetic on [int64] wraps around. *)
Definition wrap64 (z : Z) : Z := (z + 2 ^ 63) mod 2 ^ 64 - 2 ^ 63.

(** [Time.Add], [Time.Before], [Time.After]. Instants range far beyond
    what a duration can span, so adding a duration never overflows. *)
Definition Add (t : Time) (d : Duration) : Time := t + d.

Definition Before (t u : Time) : bool := t <? u.

Definition After (t u : Time) : bool := u <? t.

(** [Time.Sub] saturates at the bounds of [time.Duration]. *)
Definition Sub (t u : Time) : Duration :=
  if t - u <? minDuration then minDuration
  else if maxDuration <? t - u then maxDuration
  else t - u.

(** [Duration.Seconds]: whole seconds plus the remaining nanoseconds over
    [1e9] (Go divides towards zero). Go returns the [float64] nearest to
    this rational. The code only tests the result against the integer 30:
    durations step by [1e-9] seconds, neighbouring floats around 30 lie
    [2^-48] apart and rounding is monotone, so the float reaches 30 exactly
    when the rational does. *)
Definition Seconds (d : Duration) : Q :=
  (inject_Z (Z.quot d Second) + inject_Z (Z.rem d Second) / inject_Z 1000000000)%Q.

(** ** Errors *)

(** Errors that travel through the reconciler. Those born in a collaborator
    are known by their text only. *)
Inductive error :=
| errNotFound
| errorString (text : string)
| errUnparseableSchedule (schedule : string) (cause : error)
| errTooManyMissedStartTimes (limit : Z).

Inductive result (A : Type) :=
| Ok (a : A)
| Err (e : error).

Arguments Ok {A} a.
Arguments Err {A} e.

(** ** The scheduler *)

(** [cron.Schedule]: an interface with the single method [Next]. *)
Record CronSchedule := mkCronSchedule {
  Next : Time -> Time
}.

(** The [collection] interface. A nil [*metav1.Time] is [None]; the
    creation timestamp is read without a nil test and taken to be set, as
    it is on every stored object. *)
Module Collection.
Class collection (C : Type) := {
  getCreationTimestamp : C -> Time;
  getSchedule : C -> string;
  getNextScheduleTime : C -> option Time;
  setNextScheduleTime : option Time -> C -> C;
  getLastRunTime : C -> option Time;
  setLastRunTime : option Time -> C -> C;
  getStartingDeadlineSeconds : C -> option Z;
  setLastRunStatus : CollectionStatus -> C -> C;
  setFailureMessage : string -> C -> C
}.
End Collection.

Definition maxNumberOfFailures : Z := 100.

(** The loop of [getNextScheduleTime], entered with the counter [starts] and
    the occurrence [t] under test. [Some e] is the early return. The counter
    climbs to the ceiling at most, which is why the loop ends. *)
Equations? missedStartsLoop (sched : CronSchedule) (now : Time) (starts : Z) (t : Time)
    : option error by wf (Z.to_nat (maxNumberOfFailures + 1 - starts)) lt :=
  missedStartsLoop sched now starts t with Z_lt_dec t now := {
    | left _ with Z_gt_dec (starts + 1) maxNumberOfFailures := {
        | left _ := Some (errTooManyMissedStartTimes maxNumberOfFailures)
        | right _ := missedStartsLoop sched now (starts + 1) (Next sched t) }
    | right _ := None }.
Proof. unfold maxNumberOfFailures in *. lia. Qed.

(** The instant the walk over missed occurrences starts from. *)
Definition earliestTimeOf `{Collection.collection C} (collectionInstance : C)
    (now : Time) : Time :=
  let earliestTime :=
    match Collection.getLastRunTime collectionInstance with
    | Some lastRunTime => lastRunTime
    | None => Collection.getCreationTimestamp collectionInstance
    end in
  match Collection.getStartingDeadlineSeconds collectionInstance with
  | Some deadline =>
      let schedulingDeadline := Add now (wrap64 (- Second * deadline)) in
      if After schedulingDeadline earliestTime then schedulingDeadline
      else earliestTime
  | None => earliestTime
  end.

(** [getNextScheduleTime]. [ParseStandard] is the cron parser. *)
Definition getNextScheduleTime `{Collection.collection C}
    (ParseStandard : string -> result CronSchedule)
    (collectionInstance : C) (now : Time) : result Time :=
  match ParseStandard (Collection.getSchedule collectionInstance) with
  | Err err =>
      Err (errUnparseableSchedule (Collection.getSchedule collectionInstance) err)
  | Ok sched =>
      let earliestTime := earliestTimeOf collectionInstance now in
      match missedStartsLoop sched now 0 (Next sched earliestTime) with
      | Some err => Err err
      | None => Ok (Next sched now)
      end
  end.

Definition ignoreTimeInSecond : Z := 30.

(** [shouldSchedule], with the clock reading [now] passed in. [None] is the
    nil dereference the function runs into when the next schedule time has
    never been set. *)
Definition shouldSchedule `{Collection.collection C} (collectionInstance : C)
    (now : Time) : option bool :=
  match Collection.getNextScheduleTime collectionInstance with
  | None => None
  | Some nextScheduleTime =>
      if Before now nextScheduleTime then Some false
      else
        match Collection.getLastRunTime collectionInstance with
        | Some lastRunTime =>
            let diff := Sub now lastRunTime in
            Some (Qle_bool (inject_Z ignoreTimeInSecond) (Seconds diff))
        | None => Some true
        end
  end.

(** ** Folding a collector result into the status *)

Module collector.

Inductive ResultStatus := Collected | InProgress | Failed | Unavailable.

(** [collector.Result]. The error is read through its [Error] method only
    and is kept as that text. *)
Record Result := mkResult {
  resultStatus : ResultStatus;
  ResultErr : option string
}.

Inductive CollectionType := Snapshot | Techsupport.

End collector.

(** [updateStatus]. [None] is the nil dereference of a failed result that
    carries no error. *)
Definition updateStatus `{Collection.collection C} (result : collector.Result)
    (collectionInstance : C) : option C :=
  let apply (status : CollectionStatus) (message : string) :=
    Collection.setFailureMessage message
      (Collection.setLastRunStatus status collectionInstance) in
  match collector.resultStatus result with
  | collector.Collected => Some (apply CollectionStatusCollected EmptyString)
  | collector.InProgress => Some (apply CollectionStatusInProgress EmptyString)
  | collector.Failed =>
      match collector.ResultErr result with
      | Some text => Some (apply CollectionStatusFailed text)
      | None => None
      end
  | collector.Unavailable => Some collectionInstance
  end.

(** [isCollectionInProgress]. *)
Definition isCollectionInProgress (lastRunStatus : option CollectionStatus) : bool :=
  match lastRunStatus with
  | Some status => bool_decide (status = CollectionStatusInProgress)
  | None => false
  end.

(** Modelled from the spec: the adapter [collectionTechsupport], which
    makes a [Techsupport] a [collection], is declared outside the two files
    embedded here. Each getter reads, and each setter writes, the field of
    the same name among the persisted fields the specification lists (last
    run time, next schedule time, last run status, failure message). *)
#[global] Instance collectionTechsupport : Collection.collection Techsupport := {|
  Collection.getCreationTimestamp t := CreationTimestamp (Meta t);
  Collection.getSchedule t := Schedule (Spec t);
  Collection.getNextScheduleTime t := NextScheduleTime (Status t);
  Collection.setNextScheduleTime v t :=
    withStatus (mkTechsupportStatus v (LastRunTime (Status t))
      (LastRunStatus (Status t)) (FailureMessage (Status t))
      (MatchingClusterRefs (Status t))) t;
  Collection.getLastRunTime t := LastRunTime (Status t);
  Collection.setLastRunTime v t :=
    withStatus (mkTechsupportStatus (NextScheduleTime (Status t)) v
      (LastRunStatus (Status t)) (FailureMessage (Status t))
      (MatchingClusterRefs (Status t))) t;
  Collection.getStartingDeadlineSeconds t := StartingDeadlineSeconds (Spec t);
  Collection.setLastRunStatus v t :=
    withStatus (mkTechsupportStatus (NextScheduleTime (Status t))
      (LastRunTime (Status t)) (Some v) (FailureMessage (Status t))
      (MatchingClusterRefs (Status t))) t;
  Collection.setFailureMessage v t :=
    withStatus (mkTechsupportStatus (NextScheduleTime (Status t))
      (LastRunTime (Status t)) (LastRunStatus (Status t)) v
      (MatchingClusterRefs (Status t))) t
|}.

(** A schedule that fires at every multiple of [period]; with a period of
    five minutes it fires like ["*/5 * * * *"]. *)
Definition everyPeriod (period : Duration) : CronSchedule :=
  mkCronSchedule (fun t => (t / period + 1) * period).

(** ** Event filters *)

(** [clusterv1.Cluster] (cluster-api) and
    [libsveltosv1beta1.SveltosCluster], with the fields the filters read. A
    Go label map may be nil, which [reflect.DeepEqual] tells apart from an
    empty map; hence the option. *)
Module clusterv1.
Record Cluster := mkCluster {
  TypeMeta : GroupVersionKind;
  Namespace : string;
  Name : string;
  DeletionTimestamp : option Time;
  Labels : option (gmap string string);
  SpecPaused : bool;
  StatusControlPlaneReady : bool
}.
End clusterv1.

Module libsveltosv1beta1.
Record SveltosCluster := mkSveltosCluster {
  TypeMeta : GroupVersionKind;
  Namespace : string;
  Name : string;
  DeletionTimestamp : option Time;
  Labels : option (gmap string string);
  SpecPaused : bool;
  StatusReady : bool
}.
End libsveltosv1beta1.

(** [event.TypedUpdateEvent]: two pointers, either of which may be nil. *)
Record TypedUpdateEvent (T : Type) := mkTypedUpdateEvent {
  ObjectOld : option T;
  ObjectNew : option T
}.

Arguments mkTypedUpdateEvent {T} _ _.
Arguments ObjectOld {T} _.
Arguments ObjectNew {T} _.

(** [event.TypedCreateEvent]: one pointer, which may be nil. *)
Record TypedCreateEvent (T : Type) := mkTypedCreateEvent {
  CreateObject : option T
}.

Arguments mkTypedCreateEvent {T} _.
Arguments CreateObject {T} _.

(** [reflect.DeepEqual] on two label maps. *)
Definition DeepEqual (a b : option (gmap string string)) : bool :=
  bool_decide (a = b).

(** Both filters build their logger from the namespace and name of the new
    object before anything else: a nil new object stops them there, which is
    the [None] answer. The create filters do the same with the object of
    the event. *)
Module ClusterPredicate.
Definition Update (obj : TypedUpdateEvent clusterv1.Cluster) : option bool :=
  match ObjectNew obj with
  | None => None
  | Some newCluster =>
      match ObjectOld obj with
      | None => Some true
      | Some oldCluster =>
          if clusterv1.SpecPaused oldCluster && negb (clusterv1.SpecPaused newCluster)
          then Some true
          else if negb (DeepEqual (clusterv1.Labels oldCluster)
                                  (clusterv1.Labels newCluster))
          then Some true
          else Some false
      end
  end.

Definition Create (obj : TypedCreateEvent clusterv1.Cluster) : option bool :=
  match CreateObject obj with
  | None => None
  | Some cluster => Some (negb (clusterv1.SpecPaused cluster))
  end.
End ClusterPredicate.

Module SveltosClusterPredicate.
Definition Update (obj : TypedUpdateEvent libsveltosv1beta1.SveltosCluster)
    : option bool :=
  match ObjectNew obj with
  | None => None
  | Some newCluster =>
      match ObjectOld obj with
      | None => Some true
      | Some oldCluster =>
          if libsveltosv1beta1.SpecPaused oldCluster
             && negb (libsveltosv1beta1.SpecPaused newCluster)
          then Some true
          else if negb (libsveltosv1beta1.StatusReady oldCluster)
                  && libsveltosv1beta1.StatusReady newCluster
          then Some true
          else if negb (DeepEqual (libsveltosv1beta1.Labels oldCluster)
                                  (libsveltosv1beta1.Labels newCluster))
          then Some true
          else Some false
      end
  end.

Definition Create (obj : TypedCreateEvent libsveltosv1beta1.SveltosCluster)
    : option bool :=
  match CreateObject obj with
  | None => None
  | Some cluster => Some (negb (libsveltosv1beta1.SpecPaused cluster))
  end.
End SveltosClusterPredicate.

(** The two watched kinds seen as the target of the specification: a pause
    flag, a readiness flag and a label set. For a cluster-api cluster the
    readiness flag is the readiness of its control plane. *)
Class Target (T : Type) := {
  targetPaused : T -> bool;
  targetReady : T -> bool;
  targetLabels : T -> option (gmap string string)
}.

#[global] Instance Target_Cluster : Target clusterv1.Cluster := {|
  targetPaused := clusterv1.SpecPaused;
  targetReady := clusterv1.StatusControlPlaneReady;
  targetLabels := clusterv1.Labels
|}.

#[global] Instance Target_SveltosCluster : Target libsveltosv1beta1.SveltosCluster := {|
  targetPaused := libsveltosv1beta1.SpecPaused;
  targetReady := libsveltosv1beta1.StatusReady;
  targetLabels := libsveltosv1beta1.Labels
|}.

Definition unpaused `{Target T} (old new : T) : Prop :=
  targetPaused old = true ∧ targetPaused new = false.

Definition becameReady `{Target T} (old new : T) : Prop :=
  targetReady old = false ∧ targetReady new = true.

Definition labelsChanged `{Target T} (old new : T) : Prop :=
  targetLabels old ≠ targetLabels new.

(** "The filter admits an update exactly when the target was unpaused, or
    became ready, or changed labels." *)
Definition admitsOnPauseReadyLabels `{Target T}
    (update : TypedUpdateEvent T -> option bool) : Prop :=
  ∀ old new, ∃ b,
    update (mkTypedUpdateEvent (Some old) (Some new)) = Some b
    ∧ (b = true ↔ unpaused old new ∨ becameReady old new ∨ labelsChanged old new).

(** The same without the readiness flag. *)
Definition admitsOnPauseLabels `{Target T}
    (update : TypedUpdateEvent T -> option bool) : Prop :=
  ∀ old new, ∃ b,
    update (mkTypedUpdateEvent (Some old) (Some new)) = Some b
    ∧ (b = true ↔ unpaused old new ∨ labelsChanged old new).

(** ** The reconciler *)

Module reconcile.
(** [types.NamespacedName], [reconcile.Request], [reconcile.Result]. *)
Record NamespacedName := mkNamespacedName {
  Namespace : string;
  Name : string
}.

Record Request := mkRequest {
  RequestNamespacedName : NamespacedName
}.

Record Result := mkResult {
  Requeue : bool;
  RequeueAfter : Duration
}.
End reconcile.

(** [requeueAfter]: how long to wait before looking at a running collection
    again. *)
Definition requeueAfter : Duration := 20 * Second.

(** The Go types the scheme is asked about. *)
Inductive ObjectType := TechsupportType | ClusterType | SveltosClusterType.

(** Calls that leave the reconciler: to the object store, to the collector
    and to the clock. *)
Inductive Call :=
| callGetResource (key : reconcile.NamespacedName)
| callUpdateResource (obj : Techsupport)
| callUpdateResourceStatus (obj : Techsupport)
| callListClusters
| callListSveltosClusters
| callCleanupEntries (storage name : string) (collectionType : collector.CollectionType)
| callGetResult (name : string) (collectionType : collector.CollectionType)
| callCollect (name : string) (collectionType : collector.CollectionType)
| callNow.

(** The collaborators. Each answer may depend on the calls made so far.
    The first four fields are fixed for the life of the process: the text of
    the finalizer, the scheme, and the two parsers. The store's answers
    leave the object in memory as the reconciler prepared it. *)
Record Env := mkEnv {
  TechsupportFinalizer : string;
  ObjectKinds : ObjectType -> result (list GroupVersionKind);
  LabelSelectorAsSelector :
    Selector -> result (option (gmap string string) -> bool);
  ParseStandard : string -> result CronSchedule;
  Now : list Call -> Time;
  GetResource : list Call -> reconcile.NamespacedName -> result Techsupport;
  UpdateResource : list Call -> Techsupport -> option error;
  UpdateResourceStatus : list Call -> Techsupport -> option error;
  ListClusters : list Call -> result (list clusterv1.Cluster);
  ListSveltosClusters : list Call -> result (list libsveltosv1beta1.SveltosCluster);
  CleanupEntries :
    list Call -> string -> string -> collector.CollectionType -> option error;
  GetResult : list Call -> string -> collector.CollectionType -> collector.Result;
  Collect : list Call -> string -> collector.CollectionType -> option error
}.

(** What a reconciliation works on: the maps and the log of calls. *)
Record World := mkWorld {
  maps : Maps;
  trace : list Call
}.

(** Computations over the world; [None] is a run-time panic. *)
Definition M (A : Type) : Type := World -> option (A * World).

#[global] Instance M_ret : MRet M := fun A a w => Some (a, w).

#[global] Instance M_bind : MBind M := fun A B f m w =>
  match m w with
  | Some (a, w) => f a w
  | None => None
  end.

Definition panic {A : Type} : M A := fun _ => None.

Definition orPanic {A : Type} (o : option A) : M A :=
  match o with
  | Some a => mret a
  | None => panic
  end.

(** A call to a collaborator: log it and take the answer. *)
Definition ask {A : Type} (c : Call) (answer : list Call -> A) : M A :=
  fun w => Some (answer (trace w), mkWorld (maps w) (trace w ++ [c])).

(** A critical section on the maps, from [mux.Lock] to [mux.Unlock]. *)
Definition locked {A : Type} (f : Maps -> A * Maps) : M A :=
  fun w => let '(a, m) := f (maps w) in Some (a, mkWorld m (trace w)).

(** The kinds of a type; the code panics when the scheme has none. *)
Definition kindsOf (env : Env) (ty : ObjectType) : M (list GroupVersionKind) :=
  match ObjectKinds env ty with
  | Ok gvks => mret gvks
  | Err _ => panic
  end.

(** The instant of year 1 that Go's zero [time.Time] denotes, and
    [metav1.Time.IsZero]. *)
Definition zeroTime : Time := -62135596800 * Second.

Definition IsZero (t : option Time) : bool :=
  match t with
  | None => true
  | Some t => bool_decide (t = zeroTime)
  end.

Definition withFinalizers (finalizers : list string) (o : Techsupport) : Techsupport :=
  withMeta (mkObjectMeta (omNamespace (Meta o)) (omName (Meta o))
              (CreationTimestamp (Meta o)) (DeletionTimestamp (Meta o)) finalizers) o.

(** [controllerutil.ContainsFinalizer], [AddFinalizer], [RemoveFinalizer]. *)
Module controllerutil.
Definition ContainsFinalizer (o : Techsupport) (finalizer : string) : bool :=
  bool_decide (finalizer ∈ Finalizers (Meta o)).

Definition AddFinalizer (o : Techsupport) (finalizer : string) : Techsupport :=
  if ContainsFinalizer o finalizer then o
  else withFinalizers (Finalizers (Meta o) ++ [finalizer]) o.

Definition RemoveFinalizer (o : Techsupport) (finalizer : string) : Techsupport :=
  withFinalizers (filter (fun f => f ≠ finalizer) (Finalizers (Meta o))) o.
End controllerutil.

(** [client.IgnoreNotFound]. *)
Definition IgnoreNotFound (err : error) : option error :=
  match err with
  | errNotFound => None
  | _ => Some err
  end.

Definition addFinalizer (env : Env) (instance : Techsupport) (finalizer : string)
    : M (Techsupport * option error) :=
  if controllerutil.ContainsFinalizer instance finalizer then mret (instance, None)
  else
    let instance := controllerutil.AddFinalizer instance finalizer in
    err ← ask (callUpdateResource instance) (fun h => UpdateResource env h instance);
    match err with
    | Some err => mret (instance, Some err)
    | None =>
        let key := reconcile.mkNamespacedName EmptyString (omName (Meta instance)) in
        fetched ← ask (callGetResource key) (fun h => GetResource env h key);
        match fetched with
        | Ok fetched => mret (fetched, None)
        | Err err => mret (instance, Some err)
        end
    end.

(** [schedule]. The clock is read once here and once more inside
    [shouldSchedule]. *)
Definition schedule `{Collection.collection C} (env : Env) (name : string)
    (collectionType : collector.CollectionType) (collectionInstance : C)
    : M (C * result Time) :=
  let newLastRunTime := Collection.getLastRunTime collectionInstance in
  now ← ask callNow (Now env);
  match getNextScheduleTime (ParseStandard env) collectionInstance now with
  | Err err => mret (collectionInstance, Err err)
  | Ok nextRun =>
      let finish (newLastRunTime : option Time) : M (C * result Time) :=
        mret (Collection.setNextScheduleTime (Some nextRun)
                (Collection.setLastRunTime newLastRunTime collectionInstance),
              Ok nextRun) in
      match Collection.getNextScheduleTime collectionInstance with
      | None => finish newLastRunTime
      | Some _ =>
          clock ← ask callNow (Now env);
          due ← orPanic (shouldSchedule collectionInstance clock);
          if due : bool then
            err ← ask (callCollect name collectionType)
                    (fun h => Collect env h name collectionType);
            match err with
            | Some err => mret (collectionInstance, Err err)
            | None => finish (Some now)
            end
          else finish newLastRunTime
      end
  end.

Definition removeQueuedJobsAndFinalizer (env : Env) (instance : Techsupport)
    (collectionType : collector.CollectionType) (storage finalizer : string)
    : M (Techsupport * option error) :=
  err ← ask (callCleanupEntries storage (omName (Meta instance)) collectionType)
          (fun h => CleanupEntries env h storage (omName (Meta instance)) collectionType);
  match err with
  | Some err => mret (instance, Some err)
  | None =>
      if controllerutil.ContainsFinalizer instance finalizer
      then mret (controllerutil.RemoveFinalizer instance finalizer, None)
      else mret (instance, None)
  end.

Definition reconcileDelete (env : Env) (instance : Techsupport)
    (collectionType : collector.CollectionType) (storage finalizer : string)
    : M (Techsupport * (reconcile.Result * option error)) :=
  '(instance, err) ← removeQueuedJobsAndFinalizer env instance collectionType
                       storage finalizer;
  match err with
  | Some err => mret (instance, (reconcile.mkResult false 0, Some err))
  | None =>
      err ← ask (callUpdateResource instance) (fun h => UpdateResource env h instance);
      match err with
      | Some err => mret (instance, (reconcile.mkResult false 0, Some err))
      | None => mret (instance, (reconcile.mkResult false 0, None))
      end
  end.

(** [GroupVersion.String], the text of [TypeMeta.APIVersion]. *)
Definition apiVersionOf (g : GroupVersionKind) : string :=
  if bool_decide (gvkGroup g = EmptyString) then gvkVersion g
  else gvkGroup g +:+ "/" +:+ gvkVersion g.

(** [addTypeInformationToObject] on bare type information. *)
Definition typeInformation (gvks : list GroupVersionKind)
    (current : GroupVersionKind) : GroupVersionKind :=
  default current (firstUsableKind gvks).

(** The loop of [getMatchingCAPIClusters]. *)
Fixpoint matchingCAPIClusters (env : Env)
    (parsedSelector : option (gmap string string) -> bool)
    (items : list clusterv1.Cluster) (matching : list ObjectReference)
    : M (list ObjectReference) :=
  match items with
  | [] => mret matching
  | cluster :: items =>
      if negb (IsZero (clusterv1.DeletionTimestamp cluster))
      then matchingCAPIClusters env parsedSelector items matching
      else
        gvks ← kindsOf env ClusterType;
        let typeMeta := typeInformation gvks (clusterv1.TypeMeta cluster) in
        if parsedSelector (clusterv1.Labels cluster)
        then matchingCAPIClusters env parsedSelector items
               (matching ++ [mkObjectReference (clusterv1.Namespace cluster)
                               (clusterv1.Name cluster) (gvkKind typeMeta)
                               (apiVersionOf typeMeta)])
        else matchingCAPIClusters env parsedSelector items matching
  end.

Definition getMatchingCAPIClusters (env : Env)
    (parsedSelector : option (gmap string string) -> bool)
    : M (result (list ObjectReference)) :=
  clusterList ← ask callListClusters (ListClusters env);
  match clusterList with
  | Err err => mret (Err err)
  | Ok items =>
      matching ← matchingCAPIClusters env parsedSelector items [];
      mret (Ok matching)
  end.

(** The loop of [getMatchingSveltosClusters]. *)
Fixpoint matchingSveltosClusters (env : Env)
    (parsedSelector : option (gmap string string) -> bool)
    (items : list libsveltosv1beta1.SveltosCluster) (matching : list ObjectReference)
    : M (list ObjectReference) :=
  match items with
  | [] => mret matching
  | cluster :: items =>
      if negb (IsZero (libsveltosv1beta1.DeletionTimestamp cluster))
      then matchingSveltosClusters env parsedSelector items matching
      else
        gvks ← kindsOf env SveltosClusterType;
        let typeMeta := typeInformation gvks (libsveltosv1beta1.TypeMeta cluster) in
        if parsedSelector (libsveltosv1beta1.Labels cluster)
        then matchingSveltosClusters env parsedSelector items
               (matching ++ [mkObjectReference (libsveltosv1beta1.Namespace cluster)
                               (libsveltosv1beta1.Name cluster) (gvkKind typeMeta)
                               (apiVersionOf typeMeta)])
        else matchingSveltosClusters env parsedSelector items matching
  end.

Definition getMatchingSveltosClusters (env : Env)
    (parsedSelector : option (gmap string string) -> bool)
    : M (result (list ObjectReference)) :=
  clusterList ← ask callListSveltosClusters (ListSveltosClusters env);
  match clusterList with
  | Err err => mret (Err err)
  | Ok items =>
      matching ← matchingSveltosClusters env parsedSelector items [];
      mret (Ok matching)
  end.

Definition getMatchingClusters (env : Env) (techsupport : Techsupport)
    : M (result (list ObjectReference)) :=
  match LabelSelectorAsSelector env (ClusterSelector (Spec techsupport)) with
  | Err err => mret (Err err)
  | Ok clusterSelector =>
      tmpMatching ← getMatchingCAPIClusters env clusterSelector;
      match tmpMatching with
      | Err err => mret (Err err)
      | Ok capi =>
          tmpMatching ← getMatchingSveltosClusters env clusterSelector;
          match tmpMatching with
          | Err err => mret (Err err)
          | Ok sveltos => mret (Ok (capi ++ sveltos)%list)
          end
      end
  end.

Definition withMatchingClusterRefs (refs : list ObjectReference)
    (t : Techsupport) : Techsupport :=
  withStatus (mkTechsupportStatus (NextScheduleTime (Status t))
                (LastRunTime (Status t)) (LastRunStatus (Status t))
                (FailureMessage (Status t)) refs) t.

Definition reconcileTechsupportNormal (env : Env) (techsupportInstance : Techsupport)
    : M (reconcile.Result * option error) :=
  '(techsupportInstance, err) ←
    addFinalizer env techsupportInstance (TechsupportFinalizer env);
  match err with
  | Some err => mret (reconcile.mkResult false 0, Some err)
  | None =>
  matchingClusters ← getMatchingClusters env techsupportInstance;
  match matchingClusters with
  | Err err => mret (reconcile.mkResult false 0, Some err)
  | Ok matchingClusters =>
  let techsupportInstance :=
    withMatchingClusterRefs matchingClusters techsupportInstance in
  gvks ← kindsOf env TechsupportType;
  techsupportInstance ← locked (updateMaps gvks techsupportInstance);
  let name := omName (Meta techsupportInstance) in
  result ← ask (callGetResult name collector.Techsupport)
             (fun h => GetResult env h name collector.Techsupport);
  techsupportInstance ← orPanic (updateStatus result techsupportInstance);
  now ← ask callNow (Now env);
  '(techsupportInstance, nextRun) ←
    schedule env name collector.Techsupport techsupportInstance;
  match nextRun with
  | Err err => mret (reconcile.mkResult false 0, Some err)
  | Ok nextRun =>
  err ← ask (callUpdateResourceStatus techsupportInstance)
          (fun h => UpdateResourceStatus env h techsupportInstance);
  match err with
  | Some _ => mret (reconcile.mkResult true requeueAfter, None)
  | None =>
  if isCollectionInProgress (LastRunStatus (Status techsupportInstance))
  then mret (reconcile.mkResult true requeueAfter, None)
  else mret (reconcile.mkResult false (Sub nextRun now), None)
  end end end end.

Definition TechsupportReconciler (env : Env) (req : reconcile.Request)
    : M (reconcile.Result * option error) :=
  fetched ← ask (callGetResource (reconcile.RequestNamespacedName req))
              (fun h => GetResource env h (reconcile.RequestNamespacedName req));
  match fetched with
  | Err err => mret (reconcile.mkResult false 0, IgnoreNotFound err)
  | Ok techsupportInstance =>
      if negb (IsZero (DeletionTimestamp (Meta techsupportInstance))) then
        '(techsupportInstance, (result, err)) ←
          reconcileDelete env techsupportInstance collector.Techsupport
            (Storage (Spec techsupportInstance)) (TechsupportFinalizer env);
        match err with
        | Some err => mret (result, Some err)
        | None =>
            gvks ← kindsOf env TechsupportType;
            _ ← locked (cleanMaps gvks techsupportInstance);
            mret (reconcile.mkResult false 0, None)
        end
      else reconcileTechsupportNormal env techsupportInstance
  end.

(** ** Vocabulary of the properties *)

(** The times a schedule fires at are the values of [Next]. *)
Definition isOccurrence (sched : CronSchedule) (o : Time) : Prop :=
  ∃ s, Next sched s = o.

(** "The first occurrence at or after [now]". *)
Definition firstAtOrAfter (sched : CronSchedule) (now r : Time) : Prop :=
  isOccurrence sched r ∧ now ≤ r ∧ ∀ o, isOccurrence sched o → now ≤ o → r ≤ o.

(** "The first occurrence after [now]". *)
Definition firstAfter (sched : CronSchedule) (now r : Time) : Prop :=
  isOccurrence sched r ∧ now < r ∧ ∀ o, isOccurrence sched o → now < o → r ≤ o.

(** The baseline of the walk when no deadline is set. *)
Definition baselineOf `{Collection.collection C} (collectionInstance : C) : Time :=
  match Collection.getLastRunTime collectionInstance with
  | Some lastRunTime => lastRunTime
  | None => Collection.getCreationTimestamp collectionInstance
  end.

(** The first [n] occurrences from [t] on, [t] included, all come before
    [now]. *)
Definition allMissed (sched : CronSchedule) (now t : Time) (n : nat) : Prop :=
  ∀ k, (k < n)%nat → Nat.iter k (Next sched) t < now.

(** The object [removeQueuedJobsAndFinalizer] hands to the store once the
    purge succeeded. *)
Definition withoutFinalizer (instance : Techsupport) (finalizer : string) : Techsupport :=
  if controllerutil.ContainsFinalizer instance finalizer
  then controllerutil.RemoveFinalizer instance finalizer
  else instance.

(** Request [R] has left both maps. *)
Definition drained (m : Maps) (R : ObjectReference) : Prop :=
  techsupportMap m !! R = None
  ∧ ∀ T consumers, clusterMap m !! T = Some consumers → R ∉ consumers.

(** ** Sample objects *)

(** Objects used to run the definitions on concrete inputs. *)
Definition fiveMinutes : Duration := 300 * Second.

Definition parseEveryFiveMinutes (expr : string) : result CronSchedule :=
  if bool_decide (expr = "*/5 * * * *") then Ok (everyPeriod fiveMinutes)
  else Err (errorString "unsupported expression").

Definition techsupportGVK : GroupVersionKind :=
  mkGVK "utils.projectsveltos.io" "v1beta1" "Techsupport".

Definition exampleTechsupport (name : string) (creation : Time)
    (deletion nextSchedule lastRun : option Time) (finalizers : list string)
    (matching : list ObjectReference) : Techsupport :=
  mkTechsupport techsupportGVK
    (mkObjectMeta EmptyString name creation deletion finalizers)
    (mkTechsupportSpec (mkSelector ∅) "*/5 * * * *" None "/collection")
    (mkTechsupportStatus nextSchedule lastRun None EmptyString matching).

Definition exampleCluster (paused controlPlaneReady : bool) : clusterv1.Cluster :=
  clusterv1.mkCluster (mkGVK "cluster.x-k8s.io" "v1beta1" "Cluster")
    "default" "c1" None None paused controlPlaneReady.

(** A request whose last collection failed. *)
Definition failedTechsupport : Techsupport :=
  mkTechsupport techsupportGVK
    (mkObjectMeta EmptyString "ts1" 0 None [])
    (mkTechsupportSpec (mkSelector ∅) "*/5 * * * *" None "/collection")
    (mkTechsupportStatus None None (Some CollectionStatusFailed) "disk full" []).

Definition exampleFinalizer : string := "techsupportfinalizer.projectsveltos.io".

Definition clusterRef (name : string) : ObjectReference :=
  mkObjectReference "default" name "Cluster" "cluster.x-k8s.io/v1beta1".

(** A request on its way out: deletion timestamp set, finalizer still on,
    one cluster matched. *)
Definition terminatingTechsupport : Techsupport :=
  exampleTechsupport "ts1" 0 (Some (1000 * Second)) None None [exampleFinalizer]
    [clusterRef "c1"].

(** Collaborators with fixed answers: the clock shows [now], the store
    holds [stored], the purge answers [purge], everything else succeeds. *)
Definition exampleEnvAt (now : Time) (stored : Techsupport) (purge : option error) : Env :=
  mkEnv exampleFinalizer
    (fun _ => Ok [techsupportGVK])
    (fun _ => Ok (fun _ => true))
    parseEveryFiveMinutes
    (fun _ => now)
    (fun _ _ => Ok stored)
    (fun _ _ => None)
    (fun _ _ => None)
    (fun _ => Ok [])
    (fun _ => Ok [])
    (fun _ _ _ _ => purge)
    (fun _ _ _ => collector.mkResult collector.Unavailable None)
    (fun _ _ _ => None).

Definition exampleEnv : Techsupport -> option error -> Env :=
  exampleEnvAt (2000 * Second).

Definition exampleRequest : reconcile.Request :=
  reconcile.mkRequest (reconcile.mkNamespacedName EmptyString "ts1").

(** The world after the request has been reconciled once. *)
Definition exampleWorld : World :=
  mkWorld (updateMaps [techsupportGVK] terminatingTechsupport emptyMaps).2 [].

(** Two requests that share the target [c1], and the first of them once it
    matches nothing any more. *)
Definition requestA : Techsupport :=
  exampleTechsupport "a" 0 None None None [] [clusterRef "c1"].

Definition requestAUnmatched : Techsupport :=
  exampleTechsupport "a" 0 None None None [] [].

Definition requestB : Techsupport :=
  exampleTechsupport "b" 0 None None None [] [clusterRef "c1"; clusterRef "c2"].

Definition keyOf (techsupport : Techsupport) : ObjectReference :=
  (getKeyFromObject [techsupportGVK] techsupport).2.

(** ** Vocabulary of further properties *)

(** A kind [addTypeInformationToObject] may pick: it has a name and a
    version that is neither empty nor the internal one. *)
Definition usableKind (gvk : GroupVersionKind) : Prop :=
  gvkKind gvk ≠ EmptyString ∧ gvkVersion gvk ≠ EmptyString
  ∧ gvkVersion gvk ≠ APIVersionInternal.

(** The calls sorted by what they are for. *)
Definition isStoreAccess (c : Call) : bool :=
  match c with
  | callGetResource _ | callUpdateResource _ => true
  | _ => false
  end.

Definition isListing (c : Call) : bool :=
  match c with
  | callListClusters | callListSveltosClusters => true
  | _ => false
  end.



Definition isStatusUpdate (c : Call) : bool :=
  match c with
  | callUpdateResourceStatus _ => true
  | _ => false
  end.

(** What the matcher keeps of a cluster that matches: its coordinates and
    the type information the scheme has for it. *)
Definition capiReference (gvks : list GroupVersionKind) (cluster : clusterv1.Cluster)
    : ObjectReference :=
  mkObjectReference (clusterv1.Namespace cluster) (clusterv1.Name cluster)
    (gvkKind (typeInformation gvks (clusterv1.TypeMeta cluster)))
    (apiVersionOf (typeInformation gvks (clusterv1.TypeMeta cluster))).

Definition sveltosReference (gvks : list GroupVersionKind)
    (cluster : libsveltosv1beta1.SveltosCluster) : ObjectReference :=
  mkObjectReference (libsveltosv1beta1.Namespace cluster)
    (libsveltosv1beta1.Name cluster)
    (gvkKind (typeInformation gvks (libsveltosv1beta1.TypeMeta cluster)))
    (apiVersionOf (typeInformation gvks (libsveltosv1beta1.TypeMeta cluster))).

(** A cluster counts when it is not being deleted and the selector accepts
    its labels. *)
Definition capiCounts (parsedSelector : option (gmap string string) -> bool)
    (cluster : clusterv1.Cluster) : bool :=
  IsZero (clusterv1.DeletionTimestamp cluster)
  && parsedSelector (clusterv1.Labels cluster).

Definition sveltosCounts (parsedSelector : option (gmap string string) -> bool)
    (cluster : libsveltosv1beta1.SveltosCluster) : bool :=
  IsZero (libsveltosv1beta1.DeletionTimestamp cluster)
  && parsedSelector (libsveltosv1beta1.Labels cluster).

(** Sample clusters for the matcher. *)
Definition sampleCluster (name : string) (deletion : option Time)
    (labels : option (gmap string string)) : clusterv1.Cluster :=
  clusterv1.mkCluster (mkGVK EmptyString EmptyString EmptyString) "default" name
    deletion labels false true.

Definition sampleSveltosCluster (name : string) (deletion : option Time)
    (labels : option (gmap string string)) : libsveltosv1beta1.SveltosCluster :=
  libsveltosv1beta1.mkSveltosCluster (mkGVK EmptyString EmptyString EmptyString)
    "default" name deletion labels false true.

(** Collaborators for the matcher: fixed cluster lists, a scheme that knows
    one kind per type, and a selector that wants the label [env=prod]. *)
Definition matcherEnv (clusters : list clusterv1.Cluster)
    (sveltosClusters : list libsveltosv1beta1.SveltosCluster) : Env :=
  mkEnv exampleFinalizer
    (fun ty => match ty with
               | TechsupportType => Ok [techsupportGVK]
               | ClusterType => Ok [mkGVK "cluster.x-k8s.io" "v1beta1" "Cluster"]
               | SveltosClusterType =>
                   Ok [mkGVK "lib.projectsveltos.io" "v1beta1" "SveltosCluster"]
               end)
    (fun _ => Ok (fun labels =>
                    match labels with
                    | Some l => bool_decide (l !! "env" = Some "prod")
                    | None => false
                    end))
    parseEveryFiveMinutes
    (fun _ => 2000 * Second)
    (fun _ _ => Err errNotFound)
    (fun _ _ => None)
    (fun _ _ => None)
    (fun _ => Ok clusters)
    (fun _ => Ok sveltosClusters)
    (fun _ _ _ _ => None)
    (fun _ _ _ => collector.mkResult collector.Unavailable None)
    (fun _ _ _ => None).

(** Collaborators whose store refuses writes, whose cluster-api listing
    fails, and whose scheme knows no kind. *)
Definition conflictEnv : Env :=
  mkEnv exampleFinalizer (fun _ => Ok [techsupportGVK])
    (fun _ => Ok (fun _ => true)) parseEveryFiveMinutes (fun _ => 2000 * Second)
    (fun _ _ => Ok terminatingTechsupport)
    (fun _ _ => Some (errorString "conflict")) (fun _ _ => None)
    (fun _ => Ok []) (fun _ => Ok [])
    (fun _ _ _ _ => None)
    (fun _ _ _ => collector.mkResult collector.Unavailable None)
    (fun _ _ _ => None).

Definition listingFailsEnv : Env :=
  mkEnv exampleFinalizer (fun _ => Ok [techsupportGVK])
    (fun _ => Ok (fun _ => true)) parseEveryFiveMinutes (fun _ => 0)
    (fun _ _ => Err errNotFound) (fun _ _ => None) (fun _ _ => None)
    (fun _ => Err (errorString "timeout")) (fun _ => Ok [])
    (fun _ _ _ _ => None)
    (fun _ _ _ => collector.mkResult collector.Unavailable None)
    (fun _ _ _ => None).

Definition noKindsEnv : Env :=
  mkEnv exampleFinalizer (fun _ => Err (errorString "no kind registered"))
    (fun _ => Ok (fun _ => true)) parseEveryFiveMinutes (fun _ => 0)
    (fun _ _ => Err errNotFound) (fun _ _ => None) (fun _ _ => None)
    (fun _ => Ok [sampleCluster "c2" (Some (1000 * Second)) None])
    (fun _ => Ok [])
    (fun _ _ _ _ => None)
    (fun _ _ _ => collector.mkResult collector.Unavailable None)
    (fun _ _ _ => None).

(** Collaborators of a pass that finds a collection still running: no
    cluster is listed, the collector reports a job in progress and the clock
    shows one second. *)
Definition inProgressEnv : Env :=
  mkEnv exampleFinalizer (fun _ => Ok [techsupportGVK])
    (fun _ => Ok (fun _ => true)) parseEveryFiveMinutes (fun _ => 1 * Second)
    (fun _ _ => Err errNotFound) (fun _ _ => None) (fun _ _ => None)
    (fun _ => Ok []) (fun _ => Ok [])
    (fun _ _ _ _ => None)
    (fun _ _ _ => collector.mkResult collector.InProgress None)
    (fun _ _ _ => None).

(** A request that already carries the finalizer, before and after such a
    pass. *)
Definition settledTechsupport : Techsupport :=
  exampleTechsupport "ts1" 0 None None None [exampleFinalizer] [].

Definition pollingTechsupport : Techsupport :=
  mkTechsupport techsupportGVK
    (mkObjectMeta EmptyString "ts1" 0 None [exampleFinalizer])
    (mkTechsupportSpec (mkSelector ∅) "*/5 * * * *" None "/collection")
    (mkTechsupportStatus (Some (300 * Second)) None (Some CollectionStatusInProgress)
       EmptyString []).

(** ** Properties of the reverse index *)

Section reverse_index.
Implicit Types (R T : ObjectReference) (cm : gmap ObjectReference (gset ObjectReference)).

Lemma clusterInfoOf_id (cluster : ObjectReference) : clusterInfoOf cluster = cluster.
Proof. by destruct cluster. Qed.

Lemma currentClusters_spec (refs : list ObjectReference) (s0 : gset ObjectReference) T :
  T ∈ foldl (fun s cluster => libsveltosset.Insert (clusterInfoOf cluster) s) s0 refs
  ↔ T ∈ s0 ∨ T ∈ refs.
Proof.
  revert s0. induction refs as [|c refs IH]; intros s0; simpl.
  - rewrite elem_of_nil. tauto.
  - rewrite IH, clusterInfoOf_id, elem_of_cons.
    unfold libsveltosset.Insert. set_solver.
Qed.

Lemma onClusterEntry_lookup f cm T T' :
  default ∅ (onClusterEntry f cm T !! T')
  = if decide (T = T') then f (default ∅ (cm !! T)) else default ∅ (cm !! T').
Proof.
  unfold onClusterEntry, getClusterMapForEntry.
  destruct (cm !! T) as [s|] eqn:E; simpl.
  - destruct (decide (T = T')) as [->|]; by simplify_map_eq.
  - destruct (decide (T = T')) as [->|]; by simplify_map_eq.
Qed.

Lemma insertLoop_spec R (refs : list ObjectReference) cm T R' :
  R' ∈ default ∅ (foldl (fun cm cluster =>
          onClusterEntry (libsveltosset.Insert R) cm (clusterInfoOf cluster)) cm refs !! T)
  ↔ R' ∈ default ∅ (cm !! T) ∨ (R' = R ∧ T ∈ refs).
Proof.
  revert cm. induction refs as [|c refs IH]; intros cm; simpl.
  - rewrite elem_of_nil. tauto.
  - rewrite IH, clusterInfoOf_id, onClusterEntry_lookup, elem_of_cons.
    unfold libsveltosset.Insert.
    destruct (decide (c = T)) as [->|]; set_solver.
Qed.

Lemma eraseLoop_spec R (removed : list ObjectReference) cm T R' :
  R' ∈ default ∅ (foldl (onClusterEntry (libsveltosset.Erase R)) cm removed !! T)
  ↔ R' ∈ default ∅ (cm !! T) ∧ ¬ (R' = R ∧ T ∈ removed).
Proof.
  revert cm. induction removed as [|c removed IH]; intros cm; simpl.
  - rewrite elem_of_nil. tauto.
  - rewrite IH, onClusterEntry_lookup, elem_of_cons.
    unfold libsveltosset.Erase.
    destruct (decide (c = T)) as [->|]; set_solver.
Qed.

(** What [updateMaps] leaves in the two maps, read as relations. *)
Lemma updateMaps_targetsOf gvks techsupport m R T :
  T ∈ targetsOf (updateMaps gvks techsupport m).2 R
  ↔ if decide (R = (getKeyFromObject gvks techsupport).2)
    then T ∈ MatchingClusterRefs (Status techsupport)
    else T ∈ targetsOf m R.
Proof.
  unfold updateMaps, targetsOf.
  destruct (getKeyFromObject gvks techsupport) as [ts key] eqn:E; simpl.
  destruct (decide (R = key)) as [->|Hne].
  - rewrite lookup_insert_eq; simpl. rewrite currentClusters_spec. set_solver.
  - by rewrite lookup_insert_ne.
Qed.

Lemma getKeyFromObject_refs gvks techsupport :
  MatchingClusterRefs (Status (getKeyFromObject gvks techsupport).1)
  = MatchingClusterRefs (Status techsupport).
Proof.
  unfold getKeyFromObject, addTypeInformationToObject; simpl.
  by destruct (firstUsableKind gvks).
Qed.

Lemma updateMaps_consumersOf gvks techsupport m R T :
  R ∈ consumersOf (updateMaps gvks techsupport m).2 T
  ↔ if decide (R = (getKeyFromObject gvks techsupport).2)
    then T ∈ MatchingClusterRefs (Status techsupport)
         ∨ (R ∈ consumersOf m T ∧ T ∉ targetsOf m R)
    else R ∈ consumersOf m T.
Proof.
  unfold updateMaps, consumersOf, targetsOf.
  pose proof (getKeyFromObject_refs gvks techsupport) as Hrefs.
  destruct (getKeyFromObject gvks techsupport) as [ts key] eqn:E; simpl in *.
  rewrite eraseLoop_spec, insertLoop_spec, Hrefs.
  destruct (decide (R = key)) as [->|Hne].
  - destruct (techsupportMap m !! key) as [v|] eqn:Hv; simpl.
    + unfold libsveltosset.Difference.
      rewrite elem_of_elements, elem_of_difference, currentClusters_spec.
      destruct (decide (T ∈ MatchingClusterRefs (Status techsupport)));
        destruct (decide (T ∈ v)); set_solver.
    + rewrite elem_of_nil. set_solver.
  - tauto.
Qed.

Lemma updateMaps_consistent gvks techsupport m :
  indexConsistent m → indexConsistent (updateMaps gvks techsupport m).2.
Proof.
  intros Hm R T.
  rewrite updateMaps_targetsOf, updateMaps_consumersOf.
  specialize (Hm R T). case_decide; tauto.
Qed.

Lemma cleanMaps_targetsOf gvks techsupport m R T :
  T ∈ targetsOf (cleanMaps gvks techsupport m).2 R
  ↔ R ≠ (getKeyFromObject gvks techsupport).2 ∧ T ∈ targetsOf m R.
Proof.
  unfold cleanMaps, targetsOf.
  destruct (getKeyFromObject gvks techsupport) as [ts key]; simpl.
  destruct (decide (R = key)) as [->|Hne].
  - rewrite lookup_delete_eq; simpl. set_solver.
  - rewrite lookup_delete_ne by done. tauto.
Qed.

Lemma cleanMaps_consumersOf gvks techsupport m R T :
  R ∈ consumersOf (cleanMaps gvks techsupport m).2 T
  ↔ R ≠ (getKeyFromObject gvks techsupport).2 ∧ R ∈ consumersOf m T.
Proof.
  unfold cleanMaps, consumersOf.
  destruct (getKeyFromObject gvks techsupport) as [ts key]; simpl.
  rewrite lookup_fmap. unfold libsveltosset.Erase.
  destruct (clusterMap m !! T) as [s|]; simpl; set_solver.
Qed.

Lemma cleanMaps_consistent gvks techsupport m :
  indexConsistent m → indexConsistent (cleanMaps gvks techsupport m).2.
Proof.
  intros Hm R T.
  rewrite cleanMaps_targetsOf, cleanMaps_consumersOf.
  specialize (Hm R T). tauto.
Qed.

Lemma emptyMaps_consistent : indexConsistent emptyMaps.
Proof. intros R T. unfold targetsOf, consumersOf; simpl. by rewrite !lookup_empty. Qed.

Lemma indexCall_consistent gvks m c :
  indexConsistent m → indexConsistent (indexCall gvks m c).
Proof.
  intros Hm. destruct c; simpl.
  - apply updateMaps_consistent, Hm.
  - apply cleanMaps_consistent, Hm.
Qed.

Lemma foldl_indexCall_consistent gvks calls m :
  indexConsistent m → indexConsistent (foldl (indexCall gvks) m calls).
Proof.
  revert m. induction calls as [|c calls IH]; intros m Hm; simpl; [done|].
  apply IH, indexCall_consistent, Hm.
Qed.

Lemma consistent_noStale m : indexConsistent m → noStaleConsumers m.
Proof. intros Hm T Hnone R HR. apply (Hnone R), Hm, HR. Qed.

End reverse_index.

(** C1. Reverse-index consistency. Start from the empty maps and make any
    sequence of [updateMaps] and [cleanMaps] calls. After each call, that is
    after every prefix of the sequence, a target T is in the entry of request
    R in [techsupportMap] exactly when R is in the entry of T in [clusterMap];
    and a target that no request matches any more has no request left in its
    consumer set. *)
Theorem reverse_index_consistency (gvks : list GroupVersionKind)
    (calls : list IndexCall) (n : nat) :
  let m := runIndexCalls gvks (take n calls) in
  (∀ R T, T ∈ targetsOf m R ↔ R ∈ consumersOf m T)
  ∧ (∀ T, (∀ R, T ∉ targetsOf m R) → ∀ R, R ∉ consumersOf m T).
Proof.
  intros m.
  assert (indexConsistent m) as Hm.
  { subst m. unfold runIndexCalls.
    apply foldl_indexCall_consistent. exact emptyMaps_consistent. }
  split; [exact Hm | exact (consistent_noStale m Hm)].
Qed.

(** Two requests select [c1]; once the first is removed, the consumer set
    of [c1] holds the second and nothing else. *)
Example removing_one_of_two_consumers (R : ObjectReference) :
  R ∈ consumersOf
        (runIndexCalls [techsupportGVK] [Update requestA; Update requestB; Remove requestA])
        (clusterRef "c1")
  ↔ R = keyOf requestB.
Proof.
  unfold runIndexCalls. cbn [foldl indexCall].
  rewrite cleanMaps_consumersOf.
  assert (keyOf requestB ≠ keyOf requestA) as Hne by (intros [=]).
  assert (clusterRef "c1" ∈ MatchingClusterRefs (Status requestB)) as Hin
    by (simpl; set_solver).
  assert (R ∉ consumersOf emptyMaps (clusterRef "c1")) as He.
  { unfold consumersOf; simpl. rewrite lookup_empty. set_solver. }
  fold (keyOf requestA) (keyOf requestB).
  repeat (rewrite updateMaps_consumersOf || case_decide); subst; tauto.
Qed.

(** The maps never lose a key of [clusterMap]: a target whose last consumer
    went away keeps an entry, with an empty consumer set. *)
Example emptied_consumer_set_stays :
  clusterMap (runIndexCalls [techsupportGVK] [Update requestA; Update requestAUnmatched])
    !! clusterRef "c1" = Some ∅.
Proof. vm_compute. reflexivity. Qed.

(** ** Properties of the scheduler *)

Section scheduler.
Context {C : Type} `{Collection.collection C}.
Implicit Types (sched : CronSchedule) (now t : Time) (c : C).

Lemma missedStartsLoop_step sched now starts t :
  missedStartsLoop sched now starts t =
  if Before t now then
    if starts + 1 >? maxNumberOfFailures
    then Some (errTooManyMissedStartTimes maxNumberOfFailures)
    else missedStartsLoop sched now (starts + 1) (Next sched t)
  else None.
Proof.
  rewrite missedStartsLoop_equation_1. unfold Before.
  destruct (Z_lt_dec t now) as [Hlt|Hge]; simpl.
  - rewrite (proj2 (Z.ltb_lt _ _) Hlt).
    destruct (Z_gt_dec (starts + 1) maxNumberOfFailures) as [Hgt|Hle]; simpl.
    + by rewrite (proj2 (Z.gtb_gt _ _) Hgt).
    + destruct (starts + 1 >? maxNumberOfFailures) eqn:E; [|done].
      apply Z.gtb_gt in E. lia.
  - destruct (t <? now) eqn:E; [|done]. apply Z.ltb_lt in E. lia.
Qed.

Lemma allMissed_step sched now t n :
  allMissed sched now t (S n) ↔ t < now ∧ allMissed sched now (Next sched t) n.
Proof.
  unfold allMissed. split.
  - intros Hall. split.
    + apply (Hall 0%nat). lia.
    + intros k Hk. rewrite <- Nat.iter_succ_r. apply Hall. lia.
  - intros [Ht Hall] [|k] Hk; [exact Ht|].
    rewrite Nat.iter_succ_r. apply Hall. lia.
Qed.

(** The loop gives up exactly when every occurrence it can still look at
    comes before [now]; it can look at one more than the ceiling. *)
Lemma missedStartsLoop_spec sched now (n : nat) : ∀ starts t,
  0 ≤ starts → Z.of_nat n = maxNumberOfFailures - starts →
  (allMissed sched now t (S n) →
     missedStartsLoop sched now starts t
     = Some (errTooManyMissedStartTimes maxNumberOfFailures))
  ∧ (¬ allMissed sched now t (S n) → missedStartsLoop sched now starts t = None).
Proof.
  induction n as [|n IH]; intros starts t Hs Hn;
    rewrite missedStartsLoop_step, allMissed_step; unfold Before.
  - destruct (t <? now) eqn:Et.
    + apply Z.ltb_lt in Et.
      assert ((starts + 1 >? maxNumberOfFailures) = true) as ->
        by (apply Z.gtb_gt; lia).
      split; [done|]. intros []. split; [done|]. intros k Hk. lia.
    + apply Z.ltb_ge in Et. split; [lia|done].
  - destruct (t <? now) eqn:Et.
    + apply Z.ltb_lt in Et.
      destruct (starts + 1 >? maxNumberOfFailures) eqn:Es.
      { apply Z.gtb_gt in Es. lia. }
      destruct (IH (starts + 1) (Next sched t)) as [IH1 IH2]; [lia|lia|].
      split; [tauto|]. intros Hn'. apply IH2. tauto.
    + apply Z.ltb_ge in Et. split; [lia|done].
Qed.

Lemma getNextScheduleTime_spec ParseStandard c now sched :
  ParseStandard (Collection.getSchedule c) = Ok sched →
  (allMissed sched now (Next sched (earliestTimeOf c now)) 101 →
     getNextScheduleTime ParseStandard c now
     = Err (errTooManyMissedStartTimes maxNumberOfFailures))
  ∧ (¬ allMissed sched now (Next sched (earliestTimeOf c now)) 101 →
     getNextScheduleTime ParseStandard c now = Ok (Next sched now)).
Proof.
  intros Hparse. unfold getNextScheduleTime. rewrite Hparse.
  destruct (missedStartsLoop_spec sched now 100 0
              (Next sched (earliestTimeOf c now))) as [H1 H2]; [done|done|].
  split; intros Hall.
  - by rewrite (H1 Hall).
  - by rewrite (H2 Hall).
Qed.

Lemma iter_Next_bounded sched period t (k : nat) :
  (∀ t, Next sched t ≤ t + period) →
  Nat.iter k (Next sched) t ≤ t + Z.of_nat k * period.
Proof.
  intros Hp. induction k as [|k IH]; [simpl; lia|].
  rewrite Nat.iter_succ. specialize (Hp (Nat.iter k (Next sched) t)). lia.
Qed.

Lemma earliestTimeOf_no_deadline c now :
  Collection.getStartingDeadlineSeconds c = None →
  earliestTimeOf c now = baselineOf c.
Proof. intros Hd. unfold earliestTimeOf, baselineOf. by rewrite Hd. Qed.

Lemma Seconds_reaches (d : Duration) (n : Z) :
  Qle_bool (inject_Z n) (Seconds d) = true ↔ n * Second ≤ d.
Proof.
  rewrite Qle_bool_iff. unfold Seconds, Qle, Qplus, Qdiv, Qmult, Qinv, inject_Z; simpl.
  pose proof (Z.quot_rem' d Second) as Hd. unfold Second in *. lia.
Qed.

Lemma Sub_reaches (t u : Time) (n : Z) :
  0 ≤ n < 2 ^ 33 → (n * Second ≤ Sub t u ↔ n * Second ≤ t - u).
Proof.
  intros Hn. unfold Sub, minDuration, maxDuration, Second.
  destruct (t - u <? - 2 ^ 63) eqn:E1; [apply Z.ltb_lt in E1; lia|].
  destruct (2 ^ 63 - 1 <? t - u) eqn:E2; [apply Z.ltb_lt in E2; lia|].
  tauto.
Qed.

End scheduler.

Lemma everyPeriod_gt (period : Duration) (t : Time) :
  0 < period → t < Next (everyPeriod period) t.
Proof.
  intros Hp. simpl. pose proof (Z.mod_pos_bound t period Hp).
  pose proof (Z.div_mod t period). lia.
Qed.

Lemma everyPeriod_first (period : Duration) (s t : Time) :
  0 < period → t < Next (everyPeriod period) s →
  Next (everyPeriod period) t ≤ Next (everyPeriod period) s.
Proof.
  simpl. intros Hp Hlt.
  assert (t / period < s / period + 1) as Hq.
  { apply Z.div_lt_upper_bound; lia. }
  nia.
Qed.

Lemma everyPeriod_bounded (period : Duration) (t : Time) :
  0 < period → Next (everyPeriod period) t ≤ t + period.
Proof.
  intros Hp. simpl. pose proof (Z.mod_pos_bound t period Hp).
  pose proof (Z.div_mod t period). lia.
Qed.

(** C2, as the code has it. Take a schedule whose [Next] returns the first
    occurrence strictly after its argument, and a baseline from which fewer
    than 101 occurrences come before [now]. Then [getNextScheduleTime]
    succeeds and returns the earliest occurrence strictly after [now]; an
    occurrence falling exactly at [now] is not the one returned. *)
Theorem getNextScheduleTime_first_after_now {C : Type} `{Collection.collection C}
    (ParseStandard : string -> result CronSchedule) (c : C) (now : Time)
    (sched : CronSchedule) :
  ParseStandard (Collection.getSchedule c) = Ok sched →
  (∀ t, t < Next sched t) →
  (∀ s t, t < Next sched s → Next sched t ≤ Next sched s) →
  ¬ allMissed sched now (Next sched (earliestTimeOf c now)) 101 →
  ∃ r, getNextScheduleTime ParseStandard c now = Ok r ∧ firstAfter sched now r.
Proof.
  intros Hparse Hgt Hfirst Hceiling.
  exists (Next sched now). split.
  - by apply (getNextScheduleTime_spec ParseStandard c now sched Hparse).
  - split; [by exists now|]. split; [apply Hgt|].
    intros o [s <-] Ho. by apply Hfirst.
Qed.

Lemma getNextScheduleTime_first_after_now_witness :
  ∃ r, getNextScheduleTime parseEveryFiveMinutes
         (exampleTechsupport "ts1" 0 None None None [] []) (301 * Second) = Ok r
       ∧ firstAfter (everyPeriod fiveMinutes) (301 * Second) r.
Proof.
  apply getNextScheduleTime_first_after_now.
  - reflexivity.
  - intros t. apply everyPeriod_gt. reflexivity.
  - intros s t. apply everyPeriod_first. reflexivity.
  - intros Hall. specialize (Hall 1%nat). vm_compute in Hall.
    assert (1 < 101)%nat as Hlt by lia. specialize (Hall Hlt). discriminate Hall.
Defined.

(** C2, as the specification words it, fails: with a schedule firing every
    five minutes, a request created at instant 0 and [now] exactly five
    minutes later, the schedule fires at [now], yet the function returns the
    occurrence five minutes after [now]. *)
Lemma getNextScheduleTime_skips_occurrence_at_now :
  getNextScheduleTime parseEveryFiveMinutes
    (exampleTechsupport "ts1" 0 None None None [] []) (300 * Second)
  = Ok (600 * Second)
  ∧ isOccurrence (everyPeriod fiveMinutes) (300 * Second)
  ∧ ¬ firstAtOrAfter (everyPeriod fiveMinutes) (300 * Second) (600 * Second).
Proof.
  assert (isOccurrence (everyPeriod fiveMinutes) (300 * Second)) as Hocc
    by (exists 0; reflexivity).
  split; [reflexivity|]. split; [exact Hocc|].
  intros (_ & _ & Hleast).
  specialize (Hleast (300 * Second) Hocc). unfold Second in Hleast. lia.
Qed.

(** C4. Missed-run ceiling. Let the schedule fire at least once in every
    span of length [period], let no deadline be set, and let the baseline
    (last run time, else creation time) lie more than 101 periods before
    [now]. Then [getNextScheduleTime] returns the "too many missed start
    times" error. *)
Theorem getNextScheduleTime_missed_run_ceiling {C : Type} `{Collection.collection C}
    (ParseStandard : string -> result CronSchedule) (c : C) (now : Time)
    (sched : CronSchedule) (period : Duration) :
  ParseStandard (Collection.getSchedule c) = Ok sched →
  Collection.getStartingDeadlineSeconds c = None →
  0 < period →
  (∀ t, Next sched t ≤ t + period) →
  baselineOf c + 101 * period < now →
  getNextScheduleTime ParseStandard c now = Err (errTooManyMissedStartTimes 100).
Proof.
  intros Hparse Hdeadline Hperiod Hbound Hpast.
  apply (getNextScheduleTime_spec ParseStandard c now sched Hparse).
  rewrite (earliestTimeOf_no_deadline c now Hdeadline).
  intros k Hk. rewrite <- Nat.iter_succ_r.
  pose proof (iter_Next_bounded sched period (baselineOf c) (S k) Hbound). nia.
Qed.

Lemma getNextScheduleTime_missed_run_ceiling_witness :
  getNextScheduleTime parseEveryFiveMinutes
    (exampleTechsupport "ts1" 0 None None None [] []) (101 * fiveMinutes + 1)
  = Err (errTooManyMissedStartTimes 100).
Proof.
  apply (getNextScheduleTime_missed_run_ceiling parseEveryFiveMinutes _ _
           (everyPeriod fiveMinutes) fiveMinutes).
  - reflexivity.
  - reflexivity.
  - reflexivity.
  - intros t. apply everyPeriod_bounded. reflexivity.
  - vm_compute. reflexivity.
Defined.

(** C5. Debounce window. When [now] is not before the next scheduled time
    and a last run time is recorded, [shouldSchedule] answers false if less
    than 30 seconds have passed since the last run, and true at exactly 30
    seconds and beyond. *)
Theorem shouldSchedule_debounce_window {C : Type} `{Collection.collection C}
    (c : C) (now nextScheduleTime lastRunTime : Time) :
  Collection.getNextScheduleTime c = Some nextScheduleTime →
  nextScheduleTime ≤ now →
  Collection.getLastRunTime c = Some lastRunTime →
  (now - lastRunTime < 30 * Second → shouldSchedule c now = Some false)
  ∧ (30 * Second ≤ now - lastRunTime → shouldSchedule c now = Some true).
Proof.
  intros Hnext Hdue Hlast. unfold shouldSchedule, Before.
  rewrite Hnext, Hlast.
  assert ((now <? nextScheduleTime) = false) as -> by (apply Z.ltb_ge; lia).
  pose proof (Seconds_reaches (Sub now lastRunTime) ignoreTimeInSecond) as Hs.
  rewrite (Sub_reaches now lastRunTime ignoreTimeInSecond) in Hs by done.
  unfold ignoreTimeInSecond in *.
  split; intros Hd.
  - f_equal. apply not_true_is_false. rewrite Hs. lia.
  - f_equal. apply Hs. lia.
Qed.

Lemma shouldSchedule_debounce_window_witness :
  shouldSchedule
    (exampleTechsupport "ts1" 0 None (Some (600 * Second)) (Some (580 * Second)) [] [])
    (610 * Second - 1) = Some false
  ∧ shouldSchedule
      (exampleTechsupport "ts1" 0 None (Some (600 * Second)) (Some (580 * Second)) [] [])
      (610 * Second) = Some true.
Proof.
  split.
  - apply (shouldSchedule_debounce_window _ _ (600 * Second) (580 * Second));
      [reflexivity | vm_compute; discriminate | reflexivity | reflexivity].
  - apply (shouldSchedule_debounce_window _ _ (600 * Second) (580 * Second));
      [reflexivity | vm_compute; discriminate | reflexivity | vm_compute; discriminate].
Defined.

(** The five-minute request of the specification, created at instant 0. The
    first pass, one second in, records the next schedule time and dispatches
    nothing. *)
Example schedule_first_touch :
  schedule (exampleEnvAt (1 * Second) terminatingTechsupport None) "ts1"
    collector.Techsupport (exampleTechsupport "ts1" 0 None None None [] [])
    (mkWorld emptyMaps [])
  = Some ((exampleTechsupport "ts1" 0 None (Some (300 * Second)) None [] [],
           Ok (300 * Second)),
          mkWorld emptyMaps [callNow]).
Proof. vm_compute. reflexivity. Qed.

(** The second pass, at five minutes and one second with no run recorded,
    dispatches a job, records the instant as the last run and moves the next
    schedule time to ten minutes. *)
Example schedule_dispatches_when_due :
  schedule (exampleEnvAt (301 * Second) terminatingTechsupport None) "ts1"
    collector.Techsupport
    (exampleTechsupport "ts1" 0 None (Some (300 * Second)) None [] [])
    (mkWorld emptyMaps [])
  = Some ((exampleTechsupport "ts1" 0 None (Some (600 * Second))
             (Some (301 * Second)) [] [],
           Ok (600 * Second)),
          mkWorld emptyMaps [callNow; callNow; callCollect "ts1" collector.Techsupport]).
Proof. vm_compute. reflexivity. Qed.

(** A deadline moves the start of the walk: the same request looked at
    after 102 periods is over the ceiling, and within it again once runs
    older than an hour are written off. *)
Example deadline_bounds_the_walk :
  getNextScheduleTime parseEveryFiveMinutes
    (exampleTechsupport "ts1" 0 None None None [] []) (102 * fiveMinutes)
  = Err (errTooManyMissedStartTimes 100)
  ∧ getNextScheduleTime parseEveryFiveMinutes
      (mkTechsupport techsupportGVK (mkObjectMeta EmptyString "ts1" 0 None [])
         (mkTechsupportSpec (mkSelector ∅) "*/5 * * * *" (Some 3600) "/collection")
         (mkTechsupportStatus None None None EmptyString []))
      (102 * fiveMinutes)
    = Ok (103 * fiveMinutes).
Proof. split; vm_compute; reflexivity. Qed.

(** ** Properties of the status fold *)

Section status_fold.
Context {C : Type} `{Collection.collection C}.

(** What can be read back of the two fields [updateStatus] writes: the
    interface has setters only, so the readers and the laws tying them to
    the setters are assumptions on the implementation. *)
Variable lastRunStatus : C -> option CollectionStatus.
Variable failureMessage : C -> string.
Hypothesis lastRunStatus_set :
  ∀ s c, lastRunStatus (Collection.setLastRunStatus s c) = Some s.
Hypothesis lastRunStatus_setFailureMessage :
  ∀ m c, lastRunStatus (Collection.setFailureMessage m c) = lastRunStatus c.
Hypothesis failureMessage_set :
  ∀ m c, failureMessage (Collection.setFailureMessage m c) = m.

(** C6. Folding a collector result into the status of any collection
    instance: Collected, InProgress and Failed each set the last run status
    of the same name, Failed also copies the text of the job's error into
    the failure message, and Unavailable returns the instance as it was. *)
Theorem updateStatus_folds_result (c : C) (err : option string) (text : string) :
  (∃ c', updateStatus (collector.mkResult collector.Collected err) c = Some c'
         ∧ lastRunStatus c' = Some CollectionStatusCollected)
  ∧ (∃ c', updateStatus (collector.mkResult collector.InProgress err) c = Some c'
           ∧ lastRunStatus c' = Some CollectionStatusInProgress)
  ∧ (∃ c', updateStatus (collector.mkResult collector.Failed (Some text)) c = Some c'
           ∧ lastRunStatus c' = Some CollectionStatusFailed
           ∧ failureMessage c' = text)
  ∧ updateStatus (collector.mkResult collector.Unavailable err) c = Some c.
Proof.
  repeat split; unfold updateStatus; simpl.
  - eexists; split; [reflexivity|].
    by rewrite lastRunStatus_setFailureMessage, lastRunStatus_set.
  - eexists; split; [reflexivity|].
    by rewrite lastRunStatus_setFailureMessage, lastRunStatus_set.
  - eexists; split; [reflexivity|]. split.
    + by rewrite lastRunStatus_setFailureMessage, lastRunStatus_set.
    + by rewrite failureMessage_set.
Qed.

(** C10. A Collected or InProgress result sets the failure message to the
    empty string, whatever message an earlier failed run left behind. *)
Theorem updateStatus_clears_failure_message (c : C)
    (status : collector.ResultStatus) (err : option string) :
  status = collector.Collected ∨ status = collector.InProgress →
  ∃ c', updateStatus (collector.mkResult status err) c = Some c'
        ∧ failureMessage c' = EmptyString.
Proof.
  intros [-> | ->]; unfold updateStatus; simpl;
    (eexists; split; [reflexivity|]); by rewrite failureMessage_set.
Qed.

End status_fold.

Lemma updateStatus_folds_result_witness :
  ∃ c', updateStatus (collector.mkResult collector.Failed (Some "disk full"))
          (exampleTechsupport "ts1" 0 None None None [] []) = Some c'
        ∧ LastRunStatus (Status c') = Some CollectionStatusFailed
        ∧ FailureMessage (Status c') = "disk full".
Proof.
  apply (updateStatus_folds_result
           (fun t => LastRunStatus (Status t)) (fun t => FailureMessage (Status t))).
  - intros s c. reflexivity.
  - intros m c. reflexivity.
  - intros m c. reflexivity.
  - exact None.
Defined.

Lemma updateStatus_clears_failure_message_witness :
  ∃ c', updateStatus (collector.mkResult collector.Collected None)
          failedTechsupport = Some c'
        ∧ FailureMessage (Status c') = EmptyString.
Proof.
  apply (updateStatus_clears_failure_message (fun t => FailureMessage (Status t))).
  - intros m c. reflexivity.
  - left. reflexivity.
Defined.

(** ** Properties of the event filters *)

Lemma DeepEqual_false (a b : option (gmap string string)) :
  negb (DeepEqual a b) = true ↔ a ≠ b.
Proof.
  unfold DeepEqual. rewrite negb_true_iff, bool_decide_eq_false. tauto.
Qed.

Lemma SveltosClusterPredicate_Update_spec :
  admitsOnPauseReadyLabels SveltosClusterPredicate.Update.
Proof.
  intros old new. unfold SveltosClusterPredicate.Update; simpl.
  unfold unpaused, becameReady, labelsChanged; simpl.
  pose proof (DeepEqual_false (libsveltosv1beta1.Labels old)
                (libsveltosv1beta1.Labels new)) as Hl.
  destruct (libsveltosv1beta1.SpecPaused old), (libsveltosv1beta1.SpecPaused new),
    (libsveltosv1beta1.StatusReady old), (libsveltosv1beta1.StatusReady new),
    (negb (DeepEqual (libsveltosv1beta1.Labels old) (libsveltosv1beta1.Labels new)));
    simpl; eexists; (split; [reflexivity|]); intuition congruence.
Qed.

Lemma ClusterPredicate_Update_spec :
  admitsOnPauseLabels ClusterPredicate.Update.
Proof.
  intros old new. unfold ClusterPredicate.Update; simpl.
  unfold unpaused, labelsChanged; simpl.
  pose proof (DeepEqual_false (clusterv1.Labels old) (clusterv1.Labels new)) as Hl.
  destruct (clusterv1.SpecPaused old), (clusterv1.SpecPaused new),
    (negb (DeepEqual (clusterv1.Labels old) (clusterv1.Labels new)));
    simpl; eexists; (split; [reflexivity|]); intuition congruence.
Qed.

(** C3, as the code has it. On an update that carries both objects, the
    SveltosCluster filter admits exactly when the target was unpaused, or
    became ready, or changed labels; the cluster-api Cluster filter admits
    exactly when the target was unpaused or changed labels, and never looks
    at readiness. *)
Theorem update_filters_admit :
  admitsOnPauseReadyLabels SveltosClusterPredicate.Update
  ∧ admitsOnPauseLabels ClusterPredicate.Update.
Proof.
  split; [apply SveltosClusterPredicate_Update_spec | apply ClusterPredicate_Update_spec].
Qed.

(** C3, as the specification words it, fails for the cluster-api kind: a
    cluster whose control plane becomes ready, with pause flag and labels
    untouched, is not admitted. *)
Lemma ClusterPredicate_Update_ignores_readiness :
  ClusterPredicate.Update
    (mkTypedUpdateEvent
       (Some (exampleCluster false false))
       (Some (exampleCluster false true)))
  = Some false
  ∧ ¬ admitsOnPauseReadyLabels ClusterPredicate.Update.
Proof.
  split; [reflexivity|].
  intros Hspec.
  destruct (Hspec (exampleCluster false false) (exampleCluster false true))
    as (b & Hb & Hiff).
  simpl in Hb. injection Hb as <-.
  assert (false = true) as Habs; [|discriminate Habs].
  apply Hiff. right. left. by split.
Qed.

(** C9. Whatever the new object looks like, an update whose old object is
    nil is admitted by both filters. *)
Theorem update_filters_admit_nil_old (newCluster : clusterv1.Cluster)
    (newSveltosCluster : libsveltosv1beta1.SveltosCluster) :
  ClusterPredicate.Update (mkTypedUpdateEvent None (Some newCluster)) = Some true
  ∧ SveltosClusterPredicate.Update (mkTypedUpdateEvent None (Some newSveltosCluster))
    = Some true.
Proof. split; reflexivity. Qed.

(** ** Properties of the deletion path *)

Section deletion.
Variable env : Env.
Implicit Types (w : World) (instance : Techsupport) (e : error).

Lemma removeQueuedJobsAndFinalizer_failed instance collectionType storage finalizer w e :
  CleanupEntries env (trace w) storage (omName (Meta instance)) collectionType = Some e →
  removeQueuedJobsAndFinalizer env instance collectionType storage finalizer w
  = Some ((instance, Some e),
          mkWorld (maps w)
            (trace w ++ [callCleanupEntries storage (omName (Meta instance)) collectionType])).
Proof.
  intros Hc. unfold removeQueuedJobsAndFinalizer, mbind, M_bind, ask.
  by rewrite Hc.
Qed.

Lemma removeQueuedJobsAndFinalizer_done instance collectionType storage finalizer w :
  CleanupEntries env (trace w) storage (omName (Meta instance)) collectionType = None →
  removeQueuedJobsAndFinalizer env instance collectionType storage finalizer w
  = Some ((withoutFinalizer instance finalizer, None),
          mkWorld (maps w)
            (trace w ++ [callCleanupEntries storage (omName (Meta instance)) collectionType])).
Proof.
  intros Hc. unfold removeQueuedJobsAndFinalizer, withoutFinalizer, mbind, M_bind, ask.
  rewrite Hc. by destruct (controllerutil.ContainsFinalizer instance finalizer).
Qed.

Lemma reconcileDelete_failed instance collectionType storage finalizer w e :
  CleanupEntries env (trace w) storage (omName (Meta instance)) collectionType = Some e →
  reconcileDelete env instance collectionType storage finalizer w
  = Some ((instance, (reconcile.mkResult false 0, Some e)),
          mkWorld (maps w)
            (trace w ++ [callCleanupEntries storage (omName (Meta instance)) collectionType])).
Proof.
  intros Hc. unfold reconcileDelete, mbind, M_bind.
  by rewrite (removeQueuedJobsAndFinalizer_failed _ _ _ _ _ _ Hc).
Qed.

Lemma reconcileDelete_done instance collectionType storage finalizer w :
  CleanupEntries env (trace w) storage (omName (Meta instance)) collectionType = None →
  UpdateResource env
    (trace w ++ [callCleanupEntries storage (omName (Meta instance)) collectionType])
    (withoutFinalizer instance finalizer) = None →
  reconcileDelete env instance collectionType storage finalizer w
  = Some ((withoutFinalizer instance finalizer, (reconcile.mkResult false 0, None)),
          mkWorld (maps w)
            (trace w
             ++ [callCleanupEntries storage (omName (Meta instance)) collectionType]
             ++ [callUpdateResource (withoutFinalizer instance finalizer)])).
Proof.
  intros Hc Hu. unfold reconcileDelete, mbind, M_bind.
  rewrite (removeQueuedJobsAndFinalizer_done _ _ _ _ _ Hc).
  unfold ask; simpl. rewrite Hu. by rewrite <- app_assoc.
Qed.

Lemma withoutFinalizer_key gvks instance finalizer :
  (getKeyFromObject gvks (withoutFinalizer instance finalizer)).2
  = (getKeyFromObject gvks instance).2.
Proof.
  unfold withoutFinalizer, getKeyFromObject, addTypeInformationToObject.
  destruct (controllerutil.ContainsFinalizer instance finalizer); [|done].
  by destruct (firstUsableKind gvks).
Qed.

Lemma locked_eq {A : Type} (f : Maps -> A * Maps) w :
  locked f w = Some ((f (maps w)).1, mkWorld (f (maps w)).2 (trace w)).
Proof. unfold locked. by destruct (f (maps w)). Qed.

Lemma cleanMaps_drained gvks techsupport m :
  drained (cleanMaps gvks techsupport m).2 (getKeyFromObject gvks techsupport).2.
Proof.
  unfold cleanMaps, drained.
  destruct (getKeyFromObject gvks techsupport) as [ts key]; simpl. split.
  - apply lookup_delete_eq.
  - intros T consumers. rewrite lookup_fmap.
    destruct (clusterMap m !! T) as [s|]; simpl; [|done].
    intros [= <-]. unfold libsveltosset.Erase. set_solver.
Qed.

End deletion.

(** C7. Purge failure during deletion. Let the fetched request carry a
    deletion timestamp and let [CleanupEntries] answer with an error. Then
    the reconciler returns that error; the only calls it made are the fetch
    and the purge, so no update (and with it no removal of the finalizer)
    reached the store; [removeQueuedJobsAndFinalizer] hands the object back
    with its finalizers as they were; and both maps of the reverse index are
    what they were. *)
Theorem purge_failure_keeps_finalizer_and_index (env : Env)
    (req : reconcile.Request) (w : World) (instance : Techsupport) (e : error) :
  let key := reconcile.RequestNamespacedName req in
  let purge := callCleanupEntries (Storage (Spec instance)) (omName (Meta instance))
                 collector.Techsupport in
  GetResource env (trace w) key = Ok instance →
  IsZero (DeletionTimestamp (Meta instance)) = false →
  CleanupEntries env (trace w ++ [callGetResource key]) (Storage (Spec instance))
    (omName (Meta instance)) collector.Techsupport = Some e →
  TechsupportReconciler env req w
  = Some ((reconcile.mkResult false 0, Some e),
          mkWorld (maps w) (trace w ++ [callGetResource key] ++ [purge]))
  ∧ (∃ w', removeQueuedJobsAndFinalizer env instance collector.Techsupport
             (Storage (Spec instance)) (TechsupportFinalizer env)
             (mkWorld (maps w) (trace w ++ [callGetResource key]))
           = Some ((instance, Some e), w')
           ∧ maps w' = maps w).
Proof.
  intros key purge Hget Hdel Hpurge. split.
  - unfold TechsupportReconciler, mbind, M_bind, ask. fold key.
    rewrite Hget, Hdel; simpl.
    rewrite (reconcileDelete_failed env instance collector.Techsupport
               (Storage (Spec instance)) (TechsupportFinalizer env)
               (mkWorld (maps w) (trace w ++ [callGetResource key])) e Hpurge).
    simpl. by rewrite <- app_assoc.
  - eexists. split.
    + by apply removeQueuedJobsAndFinalizer_failed.
    + reflexivity.
Qed.

(** C8. Deletion drains state. Let the fetched request carry a deletion
    timestamp, let the purge and the update of the object succeed, and let
    the scheme know the kinds of the request type. Then the reconciler
    returns an empty result (no requeue) and no error, and in the maps it
    leaves behind the request has no entry in [techsupportMap] and occurs in
    no consumer set of [clusterMap]. *)
Theorem deletion_drains_state (env : Env) (req : reconcile.Request) (w : World)
    (instance : Techsupport) (gvks : list GroupVersionKind) :
  let key := reconcile.RequestNamespacedName req in
  let purge := callCleanupEntries (Storage (Spec instance)) (omName (Meta instance))
                 collector.Techsupport in
  GetResource env (trace w) key = Ok instance →
  IsZero (DeletionTimestamp (Meta instance)) = false →
  CleanupEntries env (trace w ++ [callGetResource key]) (Storage (Spec instance))
    (omName (Meta instance)) collector.Techsupport = None →
  UpdateResource env ((trace w ++ [callGetResource key]) ++ [purge])
    (withoutFinalizer instance (TechsupportFinalizer env)) = None →
  ObjectKinds env TechsupportType = Ok gvks →
  ∃ w', TechsupportReconciler env req w
        = Some ((reconcile.mkResult false 0, None), w')
        ∧ drained (maps w') (getKeyFromObject gvks instance).2.
Proof.
  intros key purge Hget Hdel Hpurge Hupdate Hkinds.
  pose proof (cleanMaps_drained gvks
                (withoutFinalizer instance (TechsupportFinalizer env)) (maps w)) as Hd.
  rewrite withoutFinalizer_key in Hd.
  remember (getKeyFromObject gvks instance).2 as R eqn:HR. clear HR.
  unfold TechsupportReconciler, mbind, M_bind, ask. fold key.
  rewrite Hget, Hdel; cbn [negb].
  rewrite (reconcileDelete_done env instance collector.Techsupport
             (Storage (Spec instance)) (TechsupportFinalizer env)
             (mkWorld (maps w) (trace w ++ [callGetResource key])) Hpurge Hupdate).
  unfold kindsOf. rewrite Hkinds. unfold mret, M_ret.
  rewrite locked_eq. eexists. split; [reflexivity|]. exact Hd.
Qed.

Lemma purge_failure_keeps_finalizer_and_index_witness :
  TechsupportReconciler
    (exampleEnv terminatingTechsupport (Some (errorString "storage unreachable")))
    exampleRequest exampleWorld
  = Some ((reconcile.mkResult false 0, Some (errorString "storage unreachable")),
          mkWorld (maps exampleWorld)
            ([] ++ [callGetResource (reconcile.mkNamespacedName EmptyString "ts1")]
                ++ [callCleanupEntries "/collection" "ts1" collector.Techsupport]))
  ∧ (∃ w', removeQueuedJobsAndFinalizer
             (exampleEnv terminatingTechsupport (Some (errorString "storage unreachable")))
             terminatingTechsupport collector.Techsupport "/collection" exampleFinalizer
             (mkWorld (maps exampleWorld)
                ([] ++ [callGetResource (reconcile.mkNamespacedName EmptyString "ts1")]))
           = Some ((terminatingTechsupport, Some (errorString "storage unreachable")), w')
           ∧ maps w' = maps exampleWorld).
Proof.
  apply (purge_failure_keeps_finalizer_and_index
           (exampleEnv terminatingTechsupport (Some (errorString "storage unreachable")))
           exampleRequest exampleWorld terminatingTechsupport
           (errorString "storage unreachable")).
  - reflexivity.
  - reflexivity.
  - reflexivity.
Defined.

Lemma deletion_drains_state_witness :
  ∃ w', TechsupportReconciler (exampleEnv terminatingTechsupport None)
          exampleRequest exampleWorld
        = Some ((reconcile.mkResult false 0, None), w')
        ∧ drained (maps w') (getKeyFromObject [techsupportGVK] terminatingTechsupport).2.
Proof.
  apply (deletion_drains_state (exampleEnv terminatingTechsupport None)
           exampleRequest exampleWorld terminatingTechsupport [techsupportGVK]).
  - reflexivity.
  - reflexivity.
  - reflexivity.
  - reflexivity.
  - reflexivity.
Defined.

(** ** More on the reverse index *)

Section reverse_index_more.
Implicit Types (R T : ObjectReference) (cm : gmap ObjectReference (gset ObjectReference)).

Lemma onClusterEntry_lookup_exact f cm T T' :
  onClusterEntry f cm T !! T'
  = if decide (T = T') then Some (f (default ∅ (cm !! T))) else cm !! T'.
Proof.
  unfold onClusterEntry, getClusterMapForEntry.
  destruct (cm !! T) as [s|] eqn:E; simpl;
    destruct (decide (T = T')) as [->|]; by simplify_map_eq.
Qed.

Lemma insertLoop_lookup R (refs : list ObjectReference) cm T :
  foldl (fun cm cluster =>
           onClusterEntry (libsveltosset.Insert R) cm (clusterInfoOf cluster)) cm refs !! T
  = if decide (T ∈ refs) then Some (default ∅ (cm !! T) ∪ {[R]}) else cm !! T.
Proof.
  revert cm. induction refs as [|c refs IH]; intros cm; cbn [foldl].
  - rewrite decide_False by apply not_elem_of_nil. done.
  - rewrite IH, clusterInfoOf_id, onClusterEntry_lookup_exact.
    unfold libsveltosset.Insert.
    destruct (decide (c = T)) as [->|Hne].
    + rewrite (decide_True (P := T ∈ T :: refs)) by apply list_elem_of_here.
      case_decide; f_equal; set_solver.
    + destruct (decide (T ∈ refs)) as [Hin|Hnin].
      * rewrite (decide_True (P := T ∈ c :: refs)) by (by apply list_elem_of_further).
        done.
      * rewrite (decide_False (P := T ∈ c :: refs)); [done|].
        rewrite elem_of_cons. intros [->|?]; tauto.
Qed.

Lemma eraseLoop_lookup R (removed : list ObjectReference) cm T :
  foldl (onClusterEntry (libsveltosset.Erase R)) cm removed !! T
  = if decide (T ∈ removed) then Some (default ∅ (cm !! T) ∖ {[R]}) else cm !! T.
Proof.
  revert cm. induction removed as [|c removed IH]; intros cm; cbn [foldl].
  - rewrite decide_False by apply not_elem_of_nil. done.
  - rewrite IH, onClusterEntry_lookup_exact.
    unfold libsveltosset.Erase.
    destruct (decide (c = T)) as [->|Hne].
    + rewrite (decide_True (P := T ∈ T :: removed)) by apply list_elem_of_here.
      case_decide; f_equal; set_solver.
    + destruct (decide (T ∈ removed)) as [Hin|Hnin].
      * rewrite (decide_True (P := T ∈ c :: removed))
          by (by apply list_elem_of_further).
        done.
      * rewrite (decide_False (P := T ∈ c :: removed)); [done|].
        rewrite elem_of_cons. intros [->|?]; tauto.
Qed.

(** The entry of a target in [clusterMap] once [updateMaps] is through. *)
Lemma updateMaps_clusterMap_lookup gvks techsupport m T :
  let key := (getKeyFromObject gvks techsupport).2 in
  let refs := MatchingClusterRefs (Status techsupport) in
  clusterMap (updateMaps gvks techsupport m).2 !! T
  = if decide (T ∈ refs) then Some (consumersOf m T ∪ {[key]})
    else if decide (T ∈ targetsOf m key) then Some (consumersOf m T ∖ {[key]})
    else clusterMap m !! T.
Proof.
  intros key refs. unfold updateMaps, consumersOf, targetsOf.
  pose proof (getKeyFromObject_refs gvks techsupport) as Hrefs.
  subst key. destruct (getKeyFromObject gvks techsupport) as [ts key] eqn:E.
  simpl in *. rewrite eraseLoop_lookup, insertLoop_lookup, Hrefs. fold refs.
  assert (∀ s : gset ObjectReference,
            T ∈ libsveltosset.Difference s
                  (foldl (fun s cluster => libsveltosset.Insert (clusterInfoOf cluster) s)
                     ∅ refs)
            ↔ T ∈ s ∧ T ∉ refs) as Hdiff.
  { intros s. unfold libsveltosset.Difference.
    rewrite elem_of_elements, elem_of_difference, currentClusters_spec. set_solver. }
  destruct (techsupportMap m !! key) as [v|] eqn:Hv; simpl.
  - destruct (decide (T ∈ refs)) as [Hin|Hnin].
    + rewrite decide_False by (rewrite Hdiff; tauto). done.
    + destruct (decide (T ∈ v)) as [Hv'|Hv'].
      * rewrite decide_True by (rewrite Hdiff; tauto). done.
      * rewrite decide_False by (rewrite Hdiff; tauto). done.
  - rewrite (decide_False (P := T ∈ (∅ : gset ObjectReference))) by set_solver.
    done.
Qed.

End reverse_index_more.

Section reverse_index_laws.
Implicit Types (R T : ObjectReference) (m : Maps).

Lemma Maps_eq m1 m2 :
  techsupportMap m1 = techsupportMap m2 → clusterMap m1 = clusterMap m2 →
  techsupports m1 = techsupports m2 → m1 = m2.
Proof. destruct m1, m2; simpl; by intros -> -> ->. Qed.

Lemma getKeyFromObject_spec_eq gvks techsupport :
  Spec (getKeyFromObject gvks techsupport).1 = Spec techsupport.
Proof.
  unfold getKeyFromObject, addTypeInformationToObject; simpl.
  by destruct (firstUsableKind gvks).
Qed.

Lemma updateMaps_techsupportMap gvks techsupport m :
  techsupportMap (updateMaps gvks techsupport m).2
  = <[(getKeyFromObject gvks techsupport).2 :=
        list_to_set (MatchingClusterRefs (Status techsupport))]> (techsupportMap m).
Proof.
  unfold updateMaps.
  destruct (getKeyFromObject gvks techsupport) as [ts key]; simpl.
  f_equal. apply set_eq. intros T.
  rewrite currentClusters_spec, elem_of_list_to_set. set_solver.
Qed.

Lemma updateMaps_techsupports gvks techsupport m :
  techsupports (updateMaps gvks techsupport m).2
  = <[(getKeyFromObject gvks techsupport).2 := ClusterSelector (Spec techsupport)]>
      (techsupports m).
Proof.
  unfold updateMaps.
  pose proof (getKeyFromObject_spec_eq gvks techsupport) as Hspec.
  destruct (getKeyFromObject gvks techsupport) as [ts key]; simpl in *.
  by rewrite Hspec.
Qed.

Lemma updateMaps_targetsOf_key gvks techsupport m :
  targetsOf (updateMaps gvks techsupport m).2 (getKeyFromObject gvks techsupport).2
  = list_to_set (MatchingClusterRefs (Status techsupport)).
Proof.
  unfold targetsOf. by rewrite updateMaps_techsupportMap, lookup_insert_eq.
Qed.

Lemma cleanMaps_consumersOf_eq gvks techsupport m T :
  consumersOf (cleanMaps gvks techsupport m).2 T
  = consumersOf m T ∖ {[(getKeyFromObject gvks techsupport).2]}.
Proof.
  unfold cleanMaps, consumersOf.
  destruct (getKeyFromObject gvks techsupport) as [ts key]; simpl.
  rewrite lookup_fmap. unfold libsveltosset.Erase.
  destruct (clusterMap m !! T); simpl; set_solver.
Qed.

Lemma cleanMaps_techsupportMap gvks techsupport m :
  techsupportMap (cleanMaps gvks techsupport m).2
  = delete (getKeyFromObject gvks techsupport).2 (techsupportMap m).
Proof. unfold cleanMaps. by destruct (getKeyFromObject gvks techsupport). Qed.

Lemma cleanMaps_techsupports gvks techsupport m :
  techsupports (cleanMaps gvks techsupport m).2
  = delete (getKeyFromObject gvks techsupport).2 (techsupports m).
Proof. unfold cleanMaps. by destruct (getKeyFromObject gvks techsupport). Qed.

Lemma cleanMaps_clusterMap gvks techsupport m :
  clusterMap (cleanMaps gvks techsupport m).2
  = libsveltosset.Erase (getKeyFromObject gvks techsupport).2 <$> clusterMap m.
Proof. unfold cleanMaps. by destruct (getKeyFromObject gvks techsupport). Qed.

End reverse_index_laws.

(** [updateMaps] leaves every other request alone: its entry in
    [techsupportMap], its selector in [techsupports] and its membership in
    every consumer set are what they were. *)
Theorem updateMaps_frame (gvks : list GroupVersionKind) (techsupport : Techsupport)
    (m : Maps) (R : ObjectReference) :
  R ≠ (getKeyFromObject gvks techsupport).2 →
  techsupportMap (updateMaps gvks techsupport m).2 !! R = techsupportMap m !! R
  ∧ techsupports (updateMaps gvks techsupport m).2 !! R = techsupports m !! R
  ∧ ∀ T, R ∈ consumersOf (updateMaps gvks techsupport m).2 T ↔ R ∈ consumersOf m T.
Proof.
  intros Hne. split; [|split].
  - by rewrite updateMaps_techsupportMap, lookup_insert_ne.
  - by rewrite updateMaps_techsupports, lookup_insert_ne.
  - intros T. rewrite updateMaps_consumersOf. by rewrite decide_False.
Qed.

Lemma updateMaps_frame_witness :
  techsupportMap (updateMaps [techsupportGVK] requestA
                    (updateMaps [techsupportGVK] requestB emptyMaps).2).2 !! keyOf requestB
  = techsupportMap (updateMaps [techsupportGVK] requestB emptyMaps).2 !! keyOf requestB
  ∧ techsupports (updateMaps [techsupportGVK] requestA
                    (updateMaps [techsupportGVK] requestB emptyMaps).2).2 !! keyOf requestB
    = techsupports (updateMaps [techsupportGVK] requestB emptyMaps).2 !! keyOf requestB
  ∧ ∀ T, keyOf requestB
           ∈ consumersOf (updateMaps [techsupportGVK] requestA
                            (updateMaps [techsupportGVK] requestB emptyMaps).2).2 T
         ↔ keyOf requestB
           ∈ consumersOf (updateMaps [techsupportGVK] requestB emptyMaps).2 T.
Proof.
  apply (updateMaps_frame [techsupportGVK] requestA
           (updateMaps [techsupportGVK] requestB emptyMaps).2 (keyOf requestB)).
  vm_compute. discriminate.
Defined.

(** Starting from consistent maps, [updateMaps] makes the request a consumer
    of exactly the clusters in its [MatchingClusterRefs], and those are
    exactly its targets; a reference listed twice counts once. *)
Theorem updateMaps_consumer_of_exactly_matches (gvks : list GroupVersionKind)
    (techsupport : Techsupport) (m : Maps) (T : ObjectReference) :
  indexConsistent m →
  let key := (getKeyFromObject gvks techsupport).2 in
  (T ∈ targetsOf (updateMaps gvks techsupport m).2 key
   ↔ T ∈ MatchingClusterRefs (Status techsupport))
  ∧ (key ∈ consumersOf (updateMaps gvks techsupport m).2 T
     ↔ T ∈ MatchingClusterRefs (Status techsupport)).
Proof.
  intros Hm key. subst key.
  rewrite updateMaps_targetsOf, updateMaps_consumersOf, !decide_True by done.
  specialize (Hm (getKeyFromObject gvks techsupport).2 T). tauto.
Qed.

Lemma updateMaps_consumer_of_exactly_matches_witness :
  (clusterRef "c2" ∈ targetsOf (updateMaps [techsupportGVK] requestB emptyMaps).2
                       (getKeyFromObject [techsupportGVK] requestB).2
   ↔ clusterRef "c2" ∈ MatchingClusterRefs (Status requestB))
  ∧ ((getKeyFromObject [techsupportGVK] requestB).2
       ∈ consumersOf (updateMaps [techsupportGVK] requestB emptyMaps).2 (clusterRef "c2")
     ↔ clusterRef "c2" ∈ MatchingClusterRefs (Status requestB)).
Proof.
  apply (updateMaps_consumer_of_exactly_matches [techsupportGVK] requestB emptyMaps
           (clusterRef "c2")).
  intros R T. unfold targetsOf, consumersOf. simpl. reflexivity.
Defined.

(** Running [updateMaps] a second time on the same request changes nothing:
    the three maps come out equal, keys included. *)
Theorem updateMaps_idempotent (gvks : list GroupVersionKind)
    (techsupport : Techsupport) (m : Maps) :
  (updateMaps gvks techsupport (updateMaps gvks techsupport m).2).2
  = (updateMaps gvks techsupport m).2.
Proof.
  apply Maps_eq.
  - rewrite !updateMaps_techsupportMap. apply insert_insert_eq.
  - apply map_eq. intros T.
    rewrite (updateMaps_clusterMap_lookup gvks techsupport
               (updateMaps gvks techsupport m).2 T).
    cbv zeta. rewrite updateMaps_targetsOf_key.
    destruct (decide (T ∈ MatchingClusterRefs (Status techsupport))) as [Hin|Hnin].
    + unfold consumersOf at 1.
      rewrite (updateMaps_clusterMap_lookup gvks techsupport m T).
      cbv zeta. rewrite decide_True by done. simpl. f_equal. set_solver.
    + rewrite decide_False; [done|]. by rewrite elem_of_list_to_set.
  - rewrite !updateMaps_techsupports. apply insert_insert_eq.
Qed.

(** A request that is new to the index can be taken out again without a
    trace in the two relations: after [updateMaps] followed by [cleanMaps],
    [techsupportMap] is the map it was and every target has the consumers it
    had. *)
Theorem cleanMaps_undoes_updateMaps (gvks : list GroupVersionKind)
    (techsupport : Techsupport) (m : Maps) :
  techsupportMap m !! (getKeyFromObject gvks techsupport).2 = None →
  (∀ T, (getKeyFromObject gvks techsupport).2 ∉ consumersOf m T) →
  techsupportMap (cleanMaps gvks techsupport (updateMaps gvks techsupport m).2).2
  = techsupportMap m
  ∧ ∀ T, consumersOf (cleanMaps gvks techsupport (updateMaps gvks techsupport m).2).2 T
         = consumersOf m T.
Proof.
  intros Hnew Hfree. split.
  - rewrite cleanMaps_techsupportMap, updateMaps_techsupportMap.
    rewrite delete_insert_eq. by apply delete_id.
  - intros T. rewrite cleanMaps_consumersOf_eq.
    specialize (Hfree T). unfold consumersOf at 1.
    rewrite (updateMaps_clusterMap_lookup gvks techsupport m T). cbv zeta.
    unfold targetsOf. rewrite Hnew. simpl.
    rewrite (decide_False (P := T ∈ (∅ : gset ObjectReference))) by set_solver.
    case_decide; simpl; fold (consumersOf m T); set_solver.
Qed.

Lemma cleanMaps_undoes_updateMaps_witness :
  techsupportMap (cleanMaps [techsupportGVK] requestA
                    (updateMaps [techsupportGVK] requestA emptyMaps).2).2
  = techsupportMap emptyMaps
  ∧ ∀ T, consumersOf (cleanMaps [techsupportGVK] requestA
                        (updateMaps [techsupportGVK] requestA emptyMaps).2).2 T
         = consumersOf emptyMaps T.
Proof.
  apply (cleanMaps_undoes_updateMaps [techsupportGVK] requestA emptyMaps).
  - reflexivity.
  - intros T. unfold consumersOf. simpl. rewrite lookup_empty. simpl.
    apply not_elem_of_empty.
Defined.

(** Running [cleanMaps] a second time on the same request changes nothing:
    the three maps come out equal. *)
Theorem cleanMaps_idempotent (gvks : list GroupVersionKind)
    (techsupport : Techsupport) (m : Maps) :
  (cleanMaps gvks techsupport (cleanMaps gvks techsupport m).2).2
  = (cleanMaps gvks techsupport m).2.
Proof.
  apply Maps_eq.
  - rewrite !cleanMaps_techsupportMap. apply delete_delete_eq.
  - rewrite !cleanMaps_clusterMap. rewrite <- map_fmap_compose.
    apply map_fmap_ext. intros T s _. unfold libsveltosset.Erase; simpl. set_solver.
  - rewrite !cleanMaps_techsupports. apply delete_delete_eq.
Qed.

(** Neither operation ever removes a key of [clusterMap]: a target that once
    had an entry keeps one through any further calls, even when its consumer
    set has become empty. *)
Theorem clusterMap_keys_persist (gvks : list GroupVersionKind) (calls : list IndexCall)
    (m : Maps) (T : ObjectReference) :
  is_Some (clusterMap m !! T) →
  is_Some (clusterMap (foldl (indexCall gvks) m calls) !! T).
Proof.
  revert m. induction calls as [|c calls IH]; intros m Hm; [done|].
  cbn [foldl]. apply IH. destruct c as [techsupport|techsupport]; cbn [indexCall].
  - rewrite (updateMaps_clusterMap_lookup gvks techsupport m T). cbv zeta.
    repeat case_decide; try done; by eexists.
  - rewrite cleanMaps_clusterMap, lookup_fmap. destruct Hm as [s ->]. by eexists.
Qed.

Lemma clusterMap_keys_persist_witness :
  is_Some (clusterMap
             (foldl (indexCall [techsupportGVK])
                (updateMaps [techsupportGVK] requestA emptyMaps).2
                [Update requestAUnmatched; Remove requestA])
           !! clusterRef "c1").
Proof.
  apply clusterMap_keys_persist.
  rewrite (updateMaps_clusterMap_lookup [techsupportGVK] requestA emptyMaps
             (clusterRef "c1")).
  cbv zeta. rewrite decide_True by apply list_elem_of_here. eexists. reflexivity.
Defined.

(** The selectors kept in [techsupports] follow [techsupportMap]: after any
    run of calls the two maps have the same keys. *)
Theorem techsupports_tracks_techsupportMap (gvks : list GroupVersionKind)
    (calls : list IndexCall) :
  dom (techsupports (runIndexCalls gvks calls))
  = dom (techsupportMap (runIndexCalls gvks calls)).
Proof.
  unfold runIndexCalls.
  assert (dom (techsupports emptyMaps) = dom (techsupportMap emptyMaps)) as H0
    by (simpl; by rewrite !dom_empty_L).
  revert H0. generalize emptyMaps.
  induction calls as [|c calls IH]; intros m Hm; [done|].
  cbn [foldl]. apply IH. destruct c as [techsupport|techsupport]; cbn [indexCall].
  - rewrite updateMaps_techsupports, updateMaps_techsupportMap, !dom_insert_L.
    by rewrite Hm.
  - rewrite cleanMaps_techsupports, cleanMaps_techsupportMap, !dom_delete_L.
    by rewrite Hm.
Qed.

(** ** More on request keys *)

(** The kind written into an object is the first usable one the scheme
    lists, and none is written exactly when the scheme lists no usable
    kind. *)
Theorem firstUsableKind_first_usable (gvks : list GroupVersionKind)
    (g : GroupVersionKind) :
  firstUsableKind gvks = Some g
  ↔ ∃ skipped rest, gvks = (skipped ++ g :: rest)%list ∧ usableKind g
                    ∧ Forall (fun k => ¬ usableKind k) skipped.
Proof.
  unfold usableKind. induction gvks as [|k gvks IH]; simpl.
  - split; [done|]. intros (skipped & rest & Heq & _). by destruct skipped.
  - destruct (bool_decide (gvkKind k = EmptyString)) eqn:Ek;
      [apply bool_decide_eq_true in Ek | apply bool_decide_eq_false in Ek].
    { rewrite IH. split.
      - intros (skipped & rest & -> & Hg & Hs). exists (k :: skipped), rest.
        repeat split; try tauto. constructor; [tauto|done].
      - intros (skipped & rest & Heq & Hg & Hs). destruct skipped as [|k' skipped].
        + simplify_eq/=. tauto.
        + simplify_eq/=. exists skipped, rest. inversion Hs; subst. tauto. }
    destruct (bool_decide (gvkVersion k = EmptyString)) eqn:Ev;
      [apply bool_decide_eq_true in Ev | apply bool_decide_eq_false in Ev]; simpl.
    { rewrite IH. split.
      - intros (skipped & rest & -> & Hg & Hs). exists (k :: skipped), rest.
        repeat split; try tauto. constructor; [tauto|done].
      - intros (skipped & rest & Heq & Hg & Hs). destruct skipped as [|k' skipped].
        + simplify_eq/=. tauto.
        + simplify_eq/=. exists skipped, rest. inversion Hs; subst. tauto. }
    destruct (bool_decide (gvkVersion k = APIVersionInternal)) eqn:Ei;
      [apply bool_decide_eq_true in Ei | apply bool_decide_eq_false in Ei].
    { rewrite IH. split.
      - intros (skipped & rest & -> & Hg & Hs). exists (k :: skipped), rest.
        repeat split; try tauto. constructor; [tauto|done].
      - intros (skipped & rest & Heq & Hg & Hs). destruct skipped as [|k' skipped].
        + simplify_eq/=. tauto.
        + simplify_eq/=. exists skipped, rest. inversion Hs; subst. tauto. }
    split.
    + intros [= <-]. exists [], gvks. repeat split; try done.
    + intros (skipped & rest & Heq & Hg & Hs). destruct skipped as [|k' skipped].
      * by simplify_eq/=.
      * simplify_eq/=. inversion Hs; subst. tauto.
Qed.

(** When the scheme lists a usable kind, the key of a request is fixed by
    its namespace and name alone: two objects get the same key exactly when
    they agree on both, whatever their type information, spec, status or
    finalizers. *)
Theorem getKeyFromObject_identifies_request (gvks : list GroupVersionKind)
    (a b : Techsupport) :
  is_Some (firstUsableKind gvks) →
  (getKeyFromObject gvks a).2 = (getKeyFromObject gvks b).2
  ↔ omNamespace (Meta a) = omNamespace (Meta b) ∧ omName (Meta a) = omName (Meta b).
Proof.
  intros [g Hg]. unfold getKeyFromObject, addTypeInformationToObject.
  rewrite Hg; simpl. split.
  - intros [=]. tauto.
  - intros [-> ->]. done.
Qed.

Lemma getKeyFromObject_identifies_request_witness :
  (getKeyFromObject [techsupportGVK] requestA).2
  = (getKeyFromObject [techsupportGVK] requestAUnmatched).2
  ↔ omNamespace (Meta requestA) = omNamespace (Meta requestAUnmatched)
    ∧ omName (Meta requestA) = omName (Meta requestAUnmatched).
Proof.
  apply getKeyFromObject_identifies_request. eexists. reflexivity.
Defined.

(** ** More on the scheduler *)

Section scheduler_more.
Context {C : Type} `{Collection.collection C}.
Implicit Types (sched : CronSchedule) (now t : Time) (c : C).

Lemma iter_Next_le sched t (k n : nat) :
  (∀ t, t < Next sched t) → (k ≤ n)%nat →
  Nat.iter k (Next sched) t ≤ Nat.iter n (Next sched) t.
Proof.
  intros Hgt Hkn. induction Hkn as [|n Hkn IH]; [lia|].
  rewrite Nat.iter_succ. specialize (Hgt (Nat.iter n (Next sched) t)). lia.
Qed.

Lemma allMissed_last sched now t (n : nat) :
  (∀ t, t < Next sched t) →
  allMissed sched now t (S n) ↔ Nat.iter n (Next sched) t < now.
Proof.
  intros Hgt. unfold allMissed. split.
  - intros Hall. apply Hall. lia.
  - intros Hlast k Hk.
    pose proof (iter_Next_le sched t k n Hgt ltac:(lia)). lia.
Qed.

Lemma iter_Next_gap sched gap t (k : nat) :
  (∀ t, Next sched t + gap ≤ Next sched (Next sched t)) →
  Next sched t + Z.of_nat k * gap ≤ Nat.iter k (Next sched) (Next sched t).
Proof.
  intros Hgap. induction k as [|k IH]; [simpl; lia|].
  rewrite Nat.iter_succ.
  assert (Nat.iter k (Next sched) (Next sched t)
          = Next sched (Nat.iter k (Next sched) t)) as E
    by (rewrite <- Nat.iter_succ_r; apply Nat.iter_succ).
  rewrite E in *. specialize (Hgap (Nat.iter k (Next sched) t)). lia.
Qed.

Lemma wrap64_small (z : Z) : - 2 ^ 63 ≤ z < 2 ^ 63 → wrap64 z = z.
Proof. intros Hz. unfold wrap64. rewrite Z.mod_small; lia. Qed.

Lemma earliestTimeOf_within_deadline c now (deadline : Z) :
  Collection.getStartingDeadlineSeconds c = Some deadline →
  0 ≤ deadline ≤ 9223372036 →
  now - deadline * Second ≤ earliestTimeOf c now.
Proof.
  intros Hd Hrange. unfold earliestTimeOf, Add, After. rewrite Hd.
  rewrite wrap64_small by (unfold Second; lia).
  case_match eqn:E; [lia|]. apply Z.ltb_ge in E. lia.
Qed.

Lemma getNextScheduleTime_Ok ParseStandard c now sched r :
  ParseStandard (Collection.getSchedule c) = Ok sched →
  getNextScheduleTime ParseStandard c now = Ok r → r = Next sched now.
Proof.
  intros Hparse. unfold getNextScheduleTime. rewrite Hparse.
  destruct (missedStartsLoop _ _ _ _); [done|]. by intros [= <-].
Qed.

End scheduler_more.

(** [getNextScheduleTime] on a parseable schedule whose occurrences move
    forward is decided by one instant, the 101st occurrence after the start
    of the walk: if it lies before [now] the answer is the "too many missed
    start times" error, otherwise it is the occurrence after [now]. *)
Theorem getNextScheduleTime_decided_by_101st_occurrence {C : Type}
    `{Collection.collection C} (ParseStandard : string -> result CronSchedule)
    (c : C) (now : Time) (sched : CronSchedule) :
  ParseStandard (Collection.getSchedule c) = Ok sched →
  (∀ t, t < Next sched t) →
  (Nat.iter 101 (Next sched) (earliestTimeOf c now) < now →
     getNextScheduleTime ParseStandard c now = Err (errTooManyMissedStartTimes 100))
  ∧ (now ≤ Nat.iter 101 (Next sched) (earliestTimeOf c now) →
     getNextScheduleTime ParseStandard c now = Ok (Next sched now)).
Proof.
  intros Hparse Hgt.
  destruct (getNextScheduleTime_spec ParseStandard c now sched Hparse) as [Herr Hok].
  rewrite (allMissed_last sched now _ 100 Hgt), <- Nat.iter_succ_r in Herr, Hok.
  split; [exact Herr|]. intros Hle. apply Hok. lia.
Qed.

Lemma getNextScheduleTime_decided_by_101st_occurrence_witness :
  (Nat.iter 101 (Next (everyPeriod fiveMinutes))
     (earliestTimeOf (exampleTechsupport "ts1" 0 None None None [] []) (101 * fiveMinutes))
   < 101 * fiveMinutes →
   getNextScheduleTime parseEveryFiveMinutes
     (exampleTechsupport "ts1" 0 None None None [] []) (101 * fiveMinutes)
   = Err (errTooManyMissedStartTimes 100))
  ∧ (101 * fiveMinutes
     ≤ Nat.iter 101 (Next (everyPeriod fiveMinutes))
         (earliestTimeOf (exampleTechsupport "ts1" 0 None None None [] [])
            (101 * fiveMinutes)) →
     getNextScheduleTime parseEveryFiveMinutes
       (exampleTechsupport "ts1" 0 None None None [] []) (101 * fiveMinutes)
     = Ok (Next (everyPeriod fiveMinutes) (101 * fiveMinutes))).
Proof.
  apply getNextScheduleTime_decided_by_101st_occurrence.
  - reflexivity.
  - intros t. apply everyPeriod_gt. reflexivity.
Defined.

(** Schedule monotonicity. For one schedule, a later [now] never yields an
    earlier next run, whatever happened to the request's bookkeeping in
    between. *)
Theorem getNextScheduleTime_monotone {C : Type} `{Collection.collection C}
    (ParseStandard : string -> result CronSchedule) (c1 c2 : C)
    (now1 now2 r1 r2 : Time) (sched : CronSchedule) :
  ParseStandard (Collection.getSchedule c1) = Ok sched →
  ParseStandard (Collection.getSchedule c2) = Ok sched →
  (∀ t, t < Next sched t) →
  (∀ s t, t < Next sched s → Next sched t ≤ Next sched s) →
  now1 ≤ now2 →
  getNextScheduleTime ParseStandard c1 now1 = Ok r1 →
  getNextScheduleTime ParseStandard c2 now2 = Ok r2 →
  r1 ≤ r2.
Proof.
  intros Hp1 Hp2 Hgt Hfirst Hnow Hr1 Hr2.
  rewrite (getNextScheduleTime_Ok ParseStandard c1 now1 sched r1 Hp1 Hr1).
  rewrite (getNextScheduleTime_Ok ParseStandard c2 now2 sched r2 Hp2 Hr2).
  apply Hfirst. specialize (Hgt now2). lia.
Qed.

Lemma getNextScheduleTime_monotone_witness : 300 * Second ≤ 600 * Second.
Proof.
  apply (getNextScheduleTime_monotone parseEveryFiveMinutes
           (exampleTechsupport "ts1" 0 None None None [] [])
           (exampleTechsupport "ts1" 0 None (Some (300 * Second)) (Some (301 * Second)) [] [])
           (1 * Second) (302 * Second) (300 * Second) (600 * Second)
           (everyPeriod fiveMinutes)).
  - reflexivity.
  - reflexivity.
  - intros t. apply everyPeriod_gt. reflexivity.
  - intros s t. apply everyPeriod_first. reflexivity.
  - vm_compute. discriminate.
  - vm_compute. reflexivity.
  - vm_compute. reflexivity.
Defined.

(** A starting deadline keeps the walk under the ceiling. When consecutive
    occurrences lie at least [gap] apart and the deadline spans at most 100
    such gaps, [getNextScheduleTime] never answers "too many missed start
    times", however old the last run or the creation time is. *)
Theorem getNextScheduleTime_deadline_avoids_ceiling {C : Type}
    `{Collection.collection C} (ParseStandard : string -> result CronSchedule)
    (c : C) (now : Time) (sched : CronSchedule) (deadline : Z) (gap : Duration) :
  ParseStandard (Collection.getSchedule c) = Ok sched →
  Collection.getStartingDeadlineSeconds c = Some deadline →
  0 ≤ deadline ≤ 9223372036 →
  (∀ t, t < Next sched t) →
  (∀ t, Next sched t + gap ≤ Next sched (Next sched t)) →
  deadline * Second ≤ 100 * gap →
  getNextScheduleTime ParseStandard c now = Ok (Next sched now).
Proof.
  intros Hparse Hd Hrange Hgt Hgap Hspan.
  apply (getNextScheduleTime_spec ParseStandard c now sched Hparse).
  rewrite (allMissed_last sched now _ 100 Hgt).
  pose proof (iter_Next_gap sched gap (earliestTimeOf c now) 100 Hgap) as Hlow.
  pose proof (earliestTimeOf_within_deadline c now deadline Hd Hrange) as Hstart.
  specialize (Hgt (earliestTimeOf c now)). lia.
Qed.

Lemma getNextScheduleTime_deadline_avoids_ceiling_witness :
  getNextScheduleTime parseEveryFiveMinutes
    (mkTechsupport techsupportGVK (mkObjectMeta EmptyString "ts1" 0 None [])
       (mkTechsupportSpec (mkSelector ∅) "*/5 * * * *" (Some 3600) "/collection")
       (mkTechsupportStatus None None None EmptyString []))
    (1000 * fiveMinutes)
  = Ok (Next (everyPeriod fiveMinutes) (1000 * fiveMinutes)).
Proof.
  apply (getNextScheduleTime_deadline_avoids_ceiling parseEveryFiveMinutes _ _
           (everyPeriod fiveMinutes) 3600 fiveMinutes).
  - reflexivity.
  - reflexivity.
  - lia.
  - intros t. apply everyPeriod_gt. reflexivity.
  - intros t. simpl. unfold fiveMinutes, Second.
    rewrite Z.div_mul by lia. lia.
  - vm_compute. discriminate.
Defined.

(** The decision table of [shouldSchedule] once a next schedule time is
    recorded: it answers true exactly when that time has come and either no
    run was ever recorded or the last one lies at least 30 seconds back. *)
Theorem shouldSchedule_decision {C : Type} `{Collection.collection C}
    (c : C) (now nextScheduleTime : Time) :
  Collection.getNextScheduleTime c = Some nextScheduleTime →
  ∃ b, shouldSchedule c now = Some b
       ∧ (b = true ↔
          nextScheduleTime ≤ now
          ∧ ∀ lastRunTime, Collection.getLastRunTime c = Some lastRunTime →
                           30 * Second ≤ now - lastRunTime).
Proof.
  intros Hnext. unfold shouldSchedule, Before. rewrite Hnext.
  destruct (now <? nextScheduleTime) eqn:Edue;
    [apply Z.ltb_lt in Edue | apply Z.ltb_ge in Edue].
  - eexists. split; [reflexivity|]. split; [done|]. lia.
  - destruct (Collection.getLastRunTime c) as [lastRunTime|].
    + eexists. split; [reflexivity|].
      rewrite (Seconds_reaches (Sub now lastRunTime) ignoreTimeInSecond).
      rewrite (Sub_reaches now lastRunTime ignoreTimeInSecond) by done.
      unfold ignoreTimeInSecond. split.
      * intros Hd. split; [done|]. by intros ? [= <-].
      * intros [_ Hd]. by apply Hd.
    + eexists. split; [reflexivity|]. split; [|done].
      intros _. split; [done|]. intros ? [=].
Qed.

Lemma shouldSchedule_decision_witness :
  ∃ b, shouldSchedule
         (exampleTechsupport "ts1" 0 None (Some (600 * Second)) None [] [])
         (600 * Second) = Some b
       ∧ (b = true ↔
          600 * Second ≤ 600 * Second
          ∧ ∀ lastRunTime,
              Collection.getLastRunTime
                (exampleTechsupport "ts1" 0 None (Some (600 * Second)) None [] [])
              = Some lastRunTime →
              30 * Second ≤ 600 * Second - lastRunTime).
Proof.
  apply (shouldSchedule_decision
           (exampleTechsupport "ts1" 0 None (Some (600 * Second)) None [] [])
           (600 * Second) (600 * Second)).
  reflexivity.
Defined.

(** ** Running the reconciler's pieces *)

Section runs.
Implicit Types (w : World) (t : list Call).

Lemma bind_inv {A B : Type} (m : M A) (f : A -> M B) w (r : B * World) :
  (m ≫= f) w = Some r → ∃ a w1, m w = Some (a, w1) ∧ f a w1 = Some r.
Proof.
  unfold mbind, M_bind. destruct (m w) as [[a w1]|]; [|done]. eauto.
Qed.

Lemma ret_inv {A : Type} (a b : A) w w' :
  (mret a : M A) w = Some (b, w') → b = a ∧ w' = w.
Proof. unfold mret, M_ret. by intros [= -> ->]. Qed.

Lemma ask_inv {A : Type} (c : Call) (answer : list Call -> A) w (a : A) w' :
  ask c answer w = Some (a, w') →
  a = answer (trace w) ∧ w' = mkWorld (maps w) (trace w ++ [c]).
Proof. unfold ask. by intros [= <- <-]. Qed.

Lemma locked_inv {A : Type} (f : Maps -> A * Maps) w (a : A) w' :
  locked f w = Some (a, w') →
  a = (f (maps w)).1 ∧ w' = mkWorld (f (maps w)).2 (trace w).
Proof. rewrite locked_eq. by intros [= <- <-]. Qed.

Lemma kindsOf_inv env ty w (gvks : list GroupVersionKind) w' :
  kindsOf env ty w = Some (gvks, w') → ObjectKinds env ty = Ok gvks ∧ w' = w.
Proof.
  unfold kindsOf. destruct (ObjectKinds env ty); [|done].
  by intros [-> ->]%ret_inv.
Qed.

Lemma orPanic_inv {A : Type} (o : option A) w (a : A) w' :
  orPanic o w = Some (a, w') → o = Some a ∧ w' = w.
Proof. destruct o; [|done]. simpl. by intros [-> ->]%ret_inv. Qed.

(** The loops of the matcher: a filter and a map, in list order. *)
Lemma matchingCAPIClusters_eq env sel gvks items matching w :
  ObjectKinds env ClusterType = Ok gvks →
  matchingCAPIClusters env sel items matching w
  = Some ((matching
           ++ (capiReference gvks <$> filter (fun c => capiCounts sel c = true) items))%list,
          w).
Proof.
  intros Hk. revert matching.
  induction items as [|c items IH]; intros matching; cbn [matchingCAPIClusters].
  - rewrite filter_nil. cbn [fmap list_fmap]. by rewrite app_nil_r.
  - destruct (IsZero (clusterv1.DeletionTimestamp c)) eqn:Hz; cbn [negb].
    + unfold kindsOf. rewrite Hk. unfold mbind, M_bind, mret, M_ret.
      destruct (sel (clusterv1.Labels c)) eqn:Hs.
      * rewrite filter_cons_True by (unfold capiCounts; by rewrite Hz, Hs).
        rewrite IH. cbn [fmap list_fmap]. by rewrite <- app_assoc.
      * rewrite filter_cons_False by (unfold capiCounts; by rewrite Hz, Hs).
        apply IH.
    + rewrite filter_cons_False by (unfold capiCounts; by rewrite Hz).
      apply IH.
Qed.

Lemma matchingSveltosClusters_eq env sel gvks items matching w :
  ObjectKinds env SveltosClusterType = Ok gvks →
  matchingSveltosClusters env sel items matching w
  = Some ((matching
           ++ (sveltosReference gvks
                 <$> filter (fun c => sveltosCounts sel c = true) items))%list,
          w).
Proof.
  intros Hk. revert matching.
  induction items as [|c items IH]; intros matching; cbn [matchingSveltosClusters].
  - rewrite filter_nil. cbn [fmap list_fmap]. by rewrite app_nil_r.
  - destruct (IsZero (libsveltosv1beta1.DeletionTimestamp c)) eqn:Hz; cbn [negb].
    + unfold kindsOf. rewrite Hk. unfold mbind, M_bind, mret, M_ret.
      destruct (sel (libsveltosv1beta1.Labels c)) eqn:Hs.
      * rewrite filter_cons_True by (unfold sveltosCounts; by rewrite Hz, Hs).
        rewrite IH. cbn [fmap list_fmap]. by rewrite <- app_assoc.
      * rewrite filter_cons_False by (unfold sveltosCounts; by rewrite Hz, Hs).
        apply IH.
    + rewrite filter_cons_False by (unfold sveltosCounts; by rewrite Hz).
      apply IH.
Qed.

(** Clusters on their way out are skipped before the scheme is asked. *)
Lemma matchingCAPIClusters_all_deleted env sel items matching w :
  Forall (fun c => IsZero (clusterv1.DeletionTimestamp c) = false) items →
  matchingCAPIClusters env sel items matching w = Some (matching, w).
Proof.
  induction 1 as [|c items Hc _ IH]; cbn [matchingCAPIClusters]; [done|].
  by rewrite Hc.
Qed.

Lemma matchingSveltosClusters_all_deleted env sel items matching w :
  Forall (fun c => IsZero (libsveltosv1beta1.DeletionTimestamp c) = false) items →
  matchingSveltosClusters env sel items matching w = Some (matching, w).
Proof.
  induction 1 as [|c items Hc _ IH]; cbn [matchingSveltosClusters]; [done|].
  by rewrite Hc.
Qed.

End runs.

(** ** More on the matcher *)

(** [getMatchingClusters], when the selector parses, both listings answer
    and the scheme knows both kinds: exactly two calls are made, the
    cluster-api list first, and the result holds, in list order, the
    cluster-api clusters that are not being deleted and whose labels the
    selector accepts, followed by the SveltosClusters of the same
    description. *)
Theorem getMatchingClusters_result (env : Env) (techsupport : Techsupport) (w : World)
    (sel : option (gmap string string) -> bool)
    (clusters : list clusterv1.Cluster)
    (sveltosClusters : list libsveltosv1beta1.SveltosCluster)
    (capiKinds sveltosKinds : list GroupVersionKind) :
  LabelSelectorAsSelector env (ClusterSelector (Spec techsupport)) = Ok sel →
  ListClusters env (trace w) = Ok clusters →
  ListSveltosClusters env (trace w ++ [callListClusters]) = Ok sveltosClusters →
  ObjectKinds env ClusterType = Ok capiKinds →
  ObjectKinds env SveltosClusterType = Ok sveltosKinds →
  getMatchingClusters env techsupport w
  = Some (Ok ((capiReference capiKinds
                 <$> filter (fun c => capiCounts sel c = true) clusters)
              ++ (sveltosReference sveltosKinds
                    <$> filter (fun c => sveltosCounts sel c = true) sveltosClusters))%list,
          mkWorld (maps w) (trace w ++ [callListClusters; callListSveltosClusters])).
Proof.
  intros Hsel Hc Hs Hkc Hks.
  unfold getMatchingClusters. rewrite Hsel.
  unfold getMatchingCAPIClusters, getMatchingSveltosClusters, mbind, M_bind, ask.
  rewrite Hc.
  rewrite (matchingCAPIClusters_eq env sel capiKinds clusters [] _ Hkc).
  unfold mret, M_ret. cbn [maps trace]. rewrite Hs.
  rewrite (matchingSveltosClusters_eq env sel sveltosKinds sveltosClusters [] _ Hks).
  cbn [app]. by rewrite <- app_assoc.
Qed.

Lemma getMatchingClusters_result_witness :
  getMatchingClusters
    (matcherEnv
       [sampleCluster "c1" None (Some {["env" := "prod"]});
        sampleCluster "c2" (Some (1000 * Second)) (Some {["env" := "prod"]});
        sampleCluster "c3" None None]
       [sampleSveltosCluster "s1" None (Some {["env" := "prod"]})])
    requestA (mkWorld emptyMaps [])
  = Some (Ok ((capiReference [mkGVK "cluster.x-k8s.io" "v1beta1" "Cluster"]
                 <$> filter (fun c => capiCounts
                                        (fun labels =>
                                           match labels with
                                           | Some l => bool_decide (l !! "env" = Some "prod")
                                           | None => false
                                           end) c = true)
                       [sampleCluster "c1" None (Some {["env" := "prod"]});
                        sampleCluster "c2" (Some (1000 * Second)) (Some {["env" := "prod"]});
                        sampleCluster "c3" None None])
              ++ (sveltosReference [mkGVK "lib.projectsveltos.io" "v1beta1" "SveltosCluster"]
                    <$> filter (fun c => sveltosCounts
                                           (fun labels =>
                                              match labels with
                                              | Some l => bool_decide (l !! "env" = Some "prod")
                                              | None => false
                                              end) c = true)
                          [sampleSveltosCluster "s1" None (Some {["env" := "prod"]})]))%list,
          mkWorld (maps (mkWorld emptyMaps []))
            (trace (mkWorld emptyMaps []) ++ [callListClusters; callListSveltosClusters])).
Proof.
  apply getMatchingClusters_result; reflexivity.
Defined.

(** The sample lists above, worked out: the cluster being deleted and the
    cluster without labels are left out, and the references carry the kind
    and API version the scheme has for each type. *)
Example getMatchingClusters_sample :
  getMatchingClusters
    (matcherEnv
       [sampleCluster "c1" None (Some {["env" := "prod"]});
        sampleCluster "c2" (Some (1000 * Second)) (Some {["env" := "prod"]});
        sampleCluster "c3" None None]
       [sampleSveltosCluster "s1" None (Some {["env" := "prod"]})])
    requestA (mkWorld emptyMaps [])
  = Some (Ok [mkObjectReference "default" "c1" "Cluster" "cluster.x-k8s.io/v1beta1";
              mkObjectReference "default" "s1" "SveltosCluster"
                "lib.projectsveltos.io/v1beta1"],
          mkWorld emptyMaps [callListClusters; callListSveltosClusters]).
Proof. vm_compute. reflexivity. Qed.

(** A listing that fails decides the result. When the cluster-api listing
    fails, its error is returned and the SveltosClusters are not listed; when
    it succeeds and the SveltosCluster listing fails, that error is returned
    and the cluster-api matches are dropped: the result is never a partial
    list. *)
Theorem getMatchingClusters_listing_failure (env : Env) (techsupport : Techsupport)
    (w : World) (sel : option (gmap string string) -> bool) (e : error) :
  LabelSelectorAsSelector env (ClusterSelector (Spec techsupport)) = Ok sel →
  (ListClusters env (trace w) = Err e →
   getMatchingClusters env techsupport w
   = Some (Err e, mkWorld (maps w) (trace w ++ [callListClusters])))
  ∧ (∀ clusters capiKinds,
       ListClusters env (trace w) = Ok clusters →
       ObjectKinds env ClusterType = Ok capiKinds →
       ListSveltosClusters env (trace w ++ [callListClusters]) = Err e →
       getMatchingClusters env techsupport w
       = Some (Err e,
               mkWorld (maps w)
                 (trace w ++ [callListClusters; callListSveltosClusters]))).
Proof.
  intros Hsel. unfold getMatchingClusters. rewrite Hsel.
  unfold getMatchingCAPIClusters, getMatchingSveltosClusters, mbind, M_bind, ask.
  split.
  - by intros ->.
  - intros clusters capiKinds -> Hk Hs.
    rewrite (matchingCAPIClusters_eq env sel capiKinds clusters [] _ Hk).
    unfold mret, M_ret. cbn [maps trace]. rewrite Hs. by rewrite <- app_assoc.
Qed.

Lemma getMatchingClusters_listing_failure_witness :
  (ListClusters listingFailsEnv (trace (mkWorld emptyMaps []))
   = Err (errorString "timeout") →
   getMatchingClusters listingFailsEnv requestA (mkWorld emptyMaps [])
   = Some (Err (errorString "timeout"),
           mkWorld (maps (mkWorld emptyMaps []))
             (trace (mkWorld emptyMaps []) ++ [callListClusters])))
  ∧ (∀ clusters capiKinds,
       ListClusters listingFailsEnv (trace (mkWorld emptyMaps [])) = Ok clusters →
       ObjectKinds listingFailsEnv ClusterType = Ok capiKinds →
       ListSveltosClusters listingFailsEnv
         (trace (mkWorld emptyMaps []) ++ [callListClusters])
       = Err (errorString "timeout") →
       getMatchingClusters listingFailsEnv requestA (mkWorld emptyMaps [])
       = Some (Err (errorString "timeout"),
               mkWorld (maps (mkWorld emptyMaps []))
                 (trace (mkWorld emptyMaps [])
                  ++ [callListClusters; callListSveltosClusters]))).
Proof.
  apply (getMatchingClusters_listing_failure listingFailsEnv requestA
           (mkWorld emptyMaps []) (fun _ => true) (errorString "timeout")).
  reflexivity.
Defined.

(** Clusters that are being deleted never match, and they are set aside
    before the scheme is asked for their kind: when every listed cluster of
    both types carries a deletion timestamp, the result is the empty list
    whatever the scheme knows, with no panic. *)
Theorem getMatchingClusters_nothing_live (env : Env) (techsupport : Techsupport)
    (w : World) (sel : option (gmap string string) -> bool)
    (clusters : list clusterv1.Cluster)
    (sveltosClusters : list libsveltosv1beta1.SveltosCluster) :
  LabelSelectorAsSelector env (ClusterSelector (Spec techsupport)) = Ok sel →
  ListClusters env (trace w) = Ok clusters →
  ListSveltosClusters env (trace w ++ [callListClusters]) = Ok sveltosClusters →
  Forall (fun c => IsZero (clusterv1.DeletionTimestamp c) = false) clusters →
  Forall (fun c => IsZero (libsveltosv1beta1.DeletionTimestamp c) = false)
    sveltosClusters →
  getMatchingClusters env techsupport w
  = Some (Ok [],
          mkWorld (maps w) (trace w ++ [callListClusters; callListSveltosClusters])).
Proof.
  intros Hsel Hc Hs Hdc Hds.
  unfold getMatchingClusters. rewrite Hsel.
  unfold getMatchingCAPIClusters, getMatchingSveltosClusters, mbind, M_bind, ask.
  rewrite Hc.
  rewrite (matchingCAPIClusters_all_deleted env sel clusters [] _ Hdc).
  unfold mret, M_ret. cbn [maps trace]. rewrite Hs.
  rewrite (matchingSveltosClusters_all_deleted env sel sveltosClusters [] _ Hds).
  cbn [app]. by rewrite <- app_assoc.
Qed.

Lemma getMatchingClusters_nothing_live_witness :
  getMatchingClusters
    noKindsEnv
    requestA (mkWorld emptyMaps [])
  = Some (Ok [],
          mkWorld (maps (mkWorld emptyMaps []))
            (trace (mkWorld emptyMaps []) ++ [callListClusters; callListSveltosClusters])).
Proof.
  apply (getMatchingClusters_nothing_live noKindsEnv requestA (mkWorld emptyMaps [])
           (fun _ => true) [sampleCluster "c2" (Some (1000 * Second)) None] []).
  - reflexivity.
  - reflexivity.
  - reflexivity.
  - constructor; [reflexivity | constructor].
  - constructor.
Defined.

(** ** More on finalizers and the deletion path *)

Lemma filter_other_finalizers_id (finalizer : string) (l : list string) :
  finalizer ∉ l → filter (fun f => f ≠ finalizer) l = l.
Proof.
  induction l as [|f l IH]; [done|]. rewrite not_elem_of_cons. intros [Hne Hl].
  rewrite filter_cons_True by done. by rewrite IH.
Qed.

Lemma withoutFinalizer_finalizers (instance : Techsupport) (finalizer : string) :
  Finalizers (Meta (withoutFinalizer instance finalizer))
  = filter (fun f => f ≠ finalizer) (Finalizers (Meta instance)).
Proof.
  unfold withoutFinalizer, controllerutil.ContainsFinalizer.
  case_bool_decide as Hin; [done|]. by rewrite filter_other_finalizers_id.
Qed.

(** After a successful purge [removeQueuedJobsAndFinalizer] hands back the
    object with every occurrence of the finalizer taken out and all other
    finalizers in their order; spec and status are untouched, and so are the
    maps. *)
Theorem removeQueuedJobsAndFinalizer_strips_finalizer (env : Env)
    (instance : Techsupport) (collectionType : collector.CollectionType)
    (storage finalizer : string) (w : World) :
  CleanupEntries env (trace w) storage (omName (Meta instance)) collectionType = None →
  ∃ obj w',
    removeQueuedJobsAndFinalizer env instance collectionType storage finalizer w
    = Some ((obj, None), w')
    ∧ Finalizers (Meta obj) = filter (fun f => f ≠ finalizer) (Finalizers (Meta instance))
    ∧ (finalizer ∉ Finalizers (Meta obj))
    ∧ omName (Meta obj) = omName (Meta instance)
    ∧ Spec obj = Spec instance ∧ Status obj = Status instance
    ∧ maps w' = maps w.
Proof.
  intros Hpurge. eexists _, _. split.
  - by apply removeQueuedJobsAndFinalizer_done.
  - rewrite withoutFinalizer_finalizers. split; [done|]. split.
    + rewrite list_elem_of_filter. tauto.
    + unfold withoutFinalizer. by case_match.
Qed.

Lemma removeQueuedJobsAndFinalizer_strips_finalizer_witness :
  ∃ obj w',
    removeQueuedJobsAndFinalizer (exampleEnv terminatingTechsupport None)
      terminatingTechsupport collector.Techsupport "/collection" exampleFinalizer
      exampleWorld
    = Some ((obj, None), w')
    ∧ Finalizers (Meta obj)
      = filter (fun f => f ≠ exampleFinalizer) (Finalizers (Meta terminatingTechsupport))
    ∧ (exampleFinalizer ∉ Finalizers (Meta obj))
    ∧ omName (Meta obj) = omName (Meta terminatingTechsupport)
    ∧ Spec obj = Spec terminatingTechsupport ∧ Status obj = Status terminatingTechsupport
    ∧ maps w' = maps exampleWorld.
Proof.
  apply removeQueuedJobsAndFinalizer_strips_finalizer. reflexivity.
Defined.

(** A failed write during deletion. When the purge succeeds but the store
    refuses the object without its finalizer, the reconciler returns that
    error and stops before [cleanMaps]: the maps are what they were, so the
    next pass starts from the same state. *)
Theorem update_failure_keeps_index (env : Env) (req : reconcile.Request) (w : World)
    (instance : Techsupport) (e : error) :
  let key := reconcile.RequestNamespacedName req in
  let purge := callCleanupEntries (Storage (Spec instance)) (omName (Meta instance))
                 collector.Techsupport in
  GetResource env (trace w) key = Ok instance →
  IsZero (DeletionTimestamp (Meta instance)) = false →
  CleanupEntries env (trace w ++ [callGetResource key]) (Storage (Spec instance))
    (omName (Meta instance)) collector.Techsupport = None →
  UpdateResource env ((trace w ++ [callGetResource key]) ++ [purge])
    (withoutFinalizer instance (TechsupportFinalizer env)) = Some e →
  TechsupportReconciler env req w
  = Some ((reconcile.mkResult false 0, Some e),
          mkWorld (maps w)
            (trace w ++ [callGetResource key; purge;
                         callUpdateResource
                           (withoutFinalizer instance (TechsupportFinalizer env))])).
Proof.
  intros key purge Hget Hdel Hpurge Hupdate.
  unfold TechsupportReconciler, mbind, M_bind, ask. fold key.
  rewrite Hget, Hdel; cbn [negb].
  unfold reconcileDelete, mbind, M_bind.
  rewrite (removeQueuedJobsAndFinalizer_done env instance collector.Techsupport
             (Storage (Spec instance)) (TechsupportFinalizer env)
             (mkWorld (maps w) (trace w ++ [callGetResource key])) Hpurge).
  unfold ask. cbn [maps trace]. fold purge. rewrite Hupdate.
  unfold mret, M_ret. by rewrite <- !app_assoc.
Qed.

Lemma update_failure_keeps_index_witness :
  TechsupportReconciler
    conflictEnv
    exampleRequest exampleWorld
  = Some ((reconcile.mkResult false 0, Some (errorString "conflict")),
          mkWorld (maps exampleWorld)
            (trace exampleWorld
             ++ [callGetResource (reconcile.RequestNamespacedName exampleRequest);
                 callCleanupEntries (Storage (Spec terminatingTechsupport))
                   (omName (Meta terminatingTechsupport)) collector.Techsupport;
                 callUpdateResource
                   (withoutFinalizer terminatingTechsupport exampleFinalizer)])).
Proof.
  apply (update_failure_keeps_index conflictEnv exampleRequest exampleWorld
           terminatingTechsupport (errorString "conflict")); reflexivity.
Defined.

(** An object that is gone. When the store answers "not found", the
    reconciler returns no error and asks for no requeue; it makes no other
    call and leaves the maps alone, so whatever the index held for that
    request stays. Any other error of the fetch is returned as it is. *)
Theorem fetch_failure (env : Env) (req : reconcile.Request) (w : World) (e : error) :
  GetResource env (trace w) (reconcile.RequestNamespacedName req) = Err e →
  ∃ err,
    TechsupportReconciler env req w
    = Some ((reconcile.mkResult false 0, err),
            mkWorld (maps w)
              (trace w ++ [callGetResource (reconcile.RequestNamespacedName req)]))
    ∧ (e = errNotFound → err = None)
    ∧ (e ≠ errNotFound → err = Some e).
Proof.
  intros Hget. exists (IgnoreNotFound e). split.
  - unfold TechsupportReconciler, mbind, M_bind, ask. by rewrite Hget.
  - split; [by intros ->|]. by destruct e.
Qed.

Lemma fetch_failure_witness :
  ∃ err,
    TechsupportReconciler (matcherEnv [] []) exampleRequest exampleWorld
    = Some ((reconcile.mkResult false 0, err),
            mkWorld (maps exampleWorld)
              (trace exampleWorld
               ++ [callGetResource (reconcile.RequestNamespacedName exampleRequest)]))
    ∧ (errNotFound = errNotFound → err = None)
    ∧ (errNotFound ≠ errNotFound → err = Some errNotFound).
Proof.
  apply (fetch_failure (matcherEnv [] []) exampleRequest exampleWorld errNotFound).
  reflexivity.
Defined.

(** ** More on the event filters *)

(** A target that the create filter turned away because it was paused is
    let in by the update filter on the update that unpauses it, for both
    kinds and whatever else that update changes. *)
Theorem paused_at_creation_admitted_when_unpaused
    (oldCluster newCluster : clusterv1.Cluster)
    (oldSveltos newSveltos : libsveltosv1beta1.SveltosCluster) :
  (ClusterPredicate.Create (mkTypedCreateEvent (Some oldCluster)) = Some false →
   clusterv1.SpecPaused newCluster = false →
   ClusterPredicate.Update (mkTypedUpdateEvent (Some oldCluster) (Some newCluster))
   = Some true)
  ∧ (SveltosClusterPredicate.Create (mkTypedCreateEvent (Some oldSveltos)) = Some false →
     libsveltosv1beta1.SpecPaused newSveltos = false →
     SveltosClusterPredicate.Update
       (mkTypedUpdateEvent (Some oldSveltos) (Some newSveltos))
     = Some true).
Proof.
  unfold ClusterPredicate.Create, ClusterPredicate.Update,
    SveltosClusterPredicate.Create, SveltosClusterPredicate.Update; simpl.
  split; intros [= Hold%negb_false_iff] Hnew; by rewrite Hold, Hnew.
Qed.

(** ** More on [schedule] *)

Local Open Scope list_scope.

Section schedule_runs.
Context {C : Type} `{Collection.collection C}.
Implicit Types (c : C) (w : World).

(** Every way [schedule] can run. *)
Lemma schedule_run env name collectionType c w c' (r : result Time) w' :
  schedule env name collectionType c w = Some ((c', r), w') →
  maps w' = maps w
  ∧ ((∃ e, r = Err e ∧ c' = c ∧ trace w' = trace w ++ [callNow])
     ∨ (∃ next, r = Ok next
          ∧ c' = Collection.setNextScheduleTime (Some next)
                   (Collection.setLastRunTime (Collection.getLastRunTime c) c)
          ∧ (trace w' = trace w ++ [callNow]
             ∨ (is_Some (Collection.getNextScheduleTime c)
                ∧ trace w' = trace w ++ [callNow; callNow])))
     ∨ (is_Some (Collection.getNextScheduleTime c)
        ∧ trace w' = trace w ++ [callNow; callNow; callCollect name collectionType]
        ∧ ((∃ e, r = Err e ∧ c' = c)
           ∨ (∃ next, r = Ok next
                ∧ c' = Collection.setNextScheduleTime (Some next)
                         (Collection.setLastRunTime (Some (Now env (trace w))) c))))).
Proof.
  unfold schedule. intros Hrun.
  apply bind_inv in Hrun as (now & w1 & Hnow & Hrun).
  apply ask_inv in Hnow as [-> ->].
  destruct (getNextScheduleTime (ParseStandard env) c (Now env (trace w)))
    as [next|e] eqn:Hnext.
  2:{ apply ret_inv in Hrun as [[= -> ->] ->]. split; [done|]. left. eauto. }
  destruct (Collection.getNextScheduleTime c) as [recorded|] eqn:Hrec.
  2:{ apply ret_inv in Hrun as [[= -> ->] ->]. split; [done|].
      right; left. eexists. eauto. }
  apply bind_inv in Hrun as (clock & w2 & Hclock & Hrun).
  apply ask_inv in Hclock as [-> ->].
  apply bind_inv in Hrun as (due & w3 & Hdue & Hrun).
  apply orPanic_inv in Hdue as [Hdue ->].
  destruct due.
  - apply bind_inv in Hrun as (err & w4 & Hcollect & Hrun).
    apply ask_inv in Hcollect as [-> ->]. cbn [maps trace] in Hrun.
    match type of Hrun with
    | context [Collect env ?h name collectionType] =>
        destruct (Collect env h name collectionType) as [e|]
    end.
    + apply ret_inv in Hrun as [[= -> ->] ->]. cbn [maps trace].
      split; [done|]. right; right. split; [by eexists|].
      rewrite <- !app_assoc. split; [done|]. left. eauto.
    + apply ret_inv in Hrun as [[= -> ->] ->]. cbn [maps trace].
      split; [done|]. right; right. split; [by eexists|].
      rewrite <- !app_assoc. split; [done|]. right. eauto.
  - apply ret_inv in Hrun as [[= -> ->] ->]. cbn [maps trace].
    split; [done|]. right; left. eexists. split; [done|]. split; [done|].
    right. split; [by eexists|]. by rewrite <- !app_assoc.
Qed.

Lemma shouldSchedule_is_Some c now :
  is_Some (Collection.getNextScheduleTime c) → is_Some (shouldSchedule c now).
Proof.
  intros [next Hnext]. unfold shouldSchedule. rewrite Hnext.
  destruct (Before now next); [by eexists|].
  destruct (Collection.getLastRunTime c); by eexists.
Qed.

End schedule_runs.

(** [schedule] always returns: the nil dereference inside [shouldSchedule]
    cannot be reached from it, because [shouldSchedule] is only called once
    a next schedule time is known to be recorded. *)
Theorem schedule_never_panics {C : Type} `{Collection.collection C} (env : Env)
    (name : string) (collectionType : collector.CollectionType) (c : C) (w : World) :
  is_Some (schedule env name collectionType c w).
Proof.
  unfold schedule, mbind, M_bind, ask.
  destruct (getNextScheduleTime _ _ _); [|by eexists].
  destruct (Collection.getNextScheduleTime c) as [recorded|] eqn:Hrec; [|by eexists].
  destruct (shouldSchedule_is_Some c (Now env (trace w ++ [callNow])))
    as [due Hdue]; [by eexists|].
  cbn [maps trace]. rewrite Hdue. cbn [orPanic]. unfold mret, M_ret.
  destruct due; [|by eexists].
  destruct (Collect env _ name collectionType); by eexists.
Qed.

(** Whenever [schedule] returns an error (the schedule does not parse, too
    many runs were missed, or the collector refused the job) the instance
    comes back as it went in: no last run is recorded and the next schedule
    time is not moved. The maps are untouched as well. *)
Theorem schedule_error_keeps_instance {C : Type} `{Collection.collection C}
    (env : Env) (name : string) (collectionType : collector.CollectionType)
    (c c' : C) (e : error) (w w' : World) :
  schedule env name collectionType c w = Some ((c', Err e), w') →
  c' = c ∧ maps w' = maps w.
Proof.
  intros Hrun. apply schedule_run in Hrun as [Hmaps Hcases]. split; [|done].
  destruct Hcases as [(e' & _ & -> & _) | [(next & [=] & _) | (_ & _ & Hc)]]; [done|].
  destruct Hc as [(e' & _ & ->) | (next & [=] & _)]. done.
Qed.

Lemma schedule_error_keeps_instance_witness :
  exampleTechsupport "ts1" 0 None None None [] []
  = exampleTechsupport "ts1" 0 None None None [] []
  ∧ maps (mkWorld emptyMaps [callNow]) = maps (mkWorld emptyMaps []).
Proof.
  apply (schedule_error_keeps_instance
           (exampleEnvAt (102 * fiveMinutes) terminatingTechsupport None) "ts1"
           collector.Techsupport (exampleTechsupport "ts1" 0 None None None [] [])
           (exampleTechsupport "ts1" 0 None None None [] [])
           (errTooManyMissedStartTimes 100) (mkWorld emptyMaps [])
           (mkWorld emptyMaps [callNow])).
  vm_compute. reflexivity.
Defined.

(** [schedule] reads the clock once or twice and hands at most one job to
    the collector, always as its last call; on first touch, when no next
    schedule time was recorded yet, it reads the clock once and dispatches
    nothing. *)
Theorem schedule_dispatches_at_most_once {C : Type} `{Collection.collection C}
    (env : Env) (name : string) (collectionType : collector.CollectionType)
    (c c' : C) (r : result Time) (w w' : World) :
  schedule env name collectionType c w = Some ((c', r), w') →
  (trace w' = trace w ++ [callNow]
   ∨ trace w' = trace w ++ [callNow; callNow]
   ∨ trace w' = trace w ++ [callNow; callNow; callCollect name collectionType])
  ∧ (Collection.getNextScheduleTime c = None → trace w' = trace w ++ [callNow]).
Proof.
  intros Hrun. apply schedule_run in Hrun as [_ Hcases].
  destruct Hcases as [(e & _ & _ & ->) | [(next & _ & _ & Ht) | (Hrec & -> & _)]].
  - split; [by left | done].
  - destruct Ht as [-> | [Hrec ->]].
    + split; [by left | done].
    + split; [by right; left|]. intros Hnone. rewrite Hnone in Hrec.
      by destruct Hrec.
  - split; [by right; right|]. intros Hnone. rewrite Hnone in Hrec.
    by destruct Hrec.
Qed.

Lemma schedule_dispatches_at_most_once_witness :
  (trace (mkWorld emptyMaps [callNow; callNow; callCollect "ts1" collector.Techsupport])
   = trace (mkWorld emptyMaps []) ++ [callNow]
   ∨ trace (mkWorld emptyMaps [callNow; callNow; callCollect "ts1" collector.Techsupport])
     = trace (mkWorld emptyMaps []) ++ [callNow; callNow]
   ∨ trace (mkWorld emptyMaps [callNow; callNow; callCollect "ts1" collector.Techsupport])
     = trace (mkWorld emptyMaps [])
       ++ [callNow; callNow; callCollect "ts1" collector.Techsupport])
  ∧ (Collection.getNextScheduleTime
       (exampleTechsupport "ts1" 0 None (Some (300 * Second)) None [] []) = None →
     trace (mkWorld emptyMaps [callNow; callNow; callCollect "ts1" collector.Techsupport])
     = trace (mkWorld emptyMaps []) ++ [callNow]).
Proof.
  apply (schedule_dispatches_at_most_once
           (exampleEnvAt (301 * Second) terminatingTechsupport None) "ts1"
           collector.Techsupport
           (exampleTechsupport "ts1" 0 None (Some (300 * Second)) None [] [])
           (exampleTechsupport "ts1" 0 None (Some (600 * Second))
              (Some (301 * Second)) [] [])
           (Ok (600 * Second)) (mkWorld emptyMaps [])).
  vm_compute. reflexivity.
Defined.



(** ** Every run of the normal pass *)

Section normal_runs.
Variable env : Env.
Implicit Types (w : World) (instance : Techsupport) (t : list Call).

Lemma matchingCAPIClusters_run sel items matching w r w' :
  matchingCAPIClusters env sel items matching w = Some (r, w') → w' = w.
Proof.
  revert matching. induction items as [|c items IH]; intros matching;
    cbn [matchingCAPIClusters].
  - by intros [_ ->]%ret_inv.
  - destruct (negb (IsZero (clusterv1.DeletionTimestamp c))); [apply IH|].
    intros (gvks & w1 & [_ ->]%kindsOf_inv & Hrun)%bind_inv.
    destruct (sel (clusterv1.Labels c)); by apply IH in Hrun.
Qed.

Lemma matchingSveltosClusters_run sel items matching w r w' :
  matchingSveltosClusters env sel items matching w = Some (r, w') → w' = w.
Proof.
  revert matching. induction items as [|c items IH]; intros matching;
    cbn [matchingSveltosClusters].
  - by intros [_ ->]%ret_inv.
  - destruct (negb (IsZero (libsveltosv1beta1.DeletionTimestamp c))); [apply IH|].
    intros (gvks & w1 & [_ ->]%kindsOf_inv & Hrun)%bind_inv.
    destruct (sel (libsveltosv1beta1.Labels c)); by apply IH in Hrun.
Qed.

Lemma getMatchingClusters_run techsupport w r w' :
  getMatchingClusters env techsupport w = Some (r, w') →
  maps w' = maps w
  ∧ ∃ t, trace w' = trace w ++ t ∧ Forall (fun c => isListing c = true) t.
Proof.
  unfold getMatchingClusters.
  destruct (LabelSelectorAsSelector env _) as [sel|e].
  2:{ intros [_ ->]%ret_inv. split; [done|]. exists []. by rewrite app_nil_r. }
  intros (r1 & w1 & Hcapi & Hrun)%bind_inv.
  unfold getMatchingCAPIClusters in Hcapi.
  apply bind_inv in Hcapi as (l1 & w0 & [-> ->]%ask_inv & Hcapi).
  assert (w1 = mkWorld (maps w) (trace w ++ [callListClusters])) as ->.
  { destruct (ListClusters env (trace w)) as [items|e].
    - apply bind_inv in Hcapi as (m1 & w2 & ->%matchingCAPIClusters_run & Hcapi).
      by apply ret_inv in Hcapi as [_ ->].
    - by apply ret_inv in Hcapi as [_ ->]. }
  destruct r1 as [capi|e].
  2:{ apply ret_inv in Hrun as [_ ->]. split; [done|].
      exists [callListClusters]. split; [done|]. by repeat constructor. }
  apply bind_inv in Hrun as (r2 & w2 & Hsveltos & Hrun).
  unfold getMatchingSveltosClusters in Hsveltos.
  apply bind_inv in Hsveltos as (l2 & w3 & [-> ->]%ask_inv & Hsveltos).
  cbn [maps trace] in Hsveltos.
  assert (w2 = mkWorld (maps w)
                 ((trace w ++ [callListClusters]) ++ [callListSveltosClusters])) as ->.
  { destruct (ListSveltosClusters env _) as [items|e].
    - apply bind_inv in Hsveltos as (m1 & w4 & ->%matchingSveltosClusters_run & Hs).
      by apply ret_inv in Hs as [_ ->].
    - by apply ret_inv in Hsveltos as [_ ->]. }
  assert (w' = mkWorld (maps w)
                 ((trace w ++ [callListClusters]) ++ [callListSveltosClusters])) as ->.
  { destruct r2; by apply ret_inv in Hrun as [_ ->]. }
  split; [done|]. exists [callListClusters; callListSveltosClusters].
  cbn [trace]. rewrite <- app_assoc. split; [done|]. by repeat constructor.
Qed.

Lemma addFinalizer_run instance finalizer w instance' err w' :
  addFinalizer env instance finalizer w = Some ((instance', err), w') →
  maps w' = maps w
  ∧ ∃ t, trace w' = trace w ++ t
         ∧ Forall (fun c => isStoreAccess c = true) t
         ∧ (controllerutil.ContainsFinalizer instance finalizer = true →
            t = [] ∧ instance' = instance ∧ err = None)
         ∧ (controllerutil.ContainsFinalizer instance finalizer = false →
            ∃ rest,
              t = callUpdateResource
                    (withFinalizers (Finalizers (Meta instance) ++ [finalizer]) instance)
                  :: rest
              ∧ Forall (fun c => ∃ key, c = callGetResource key) rest).
Proof.
  unfold addFinalizer, controllerutil.AddFinalizer.
  destruct (controllerutil.ContainsFinalizer instance finalizer) eqn:Hc.
  - intros [[= -> ->] ->]%ret_inv. split; [done|]. exists [].
    rewrite app_nil_r. repeat split; done.
  - intros (e & w1 & [-> ->]%ask_inv & Hrun)%bind_inv.
    destruct (UpdateResource env (trace w) _) as [e|].
    + apply ret_inv in Hrun as [[= -> ->] ->]. split; [done|].
      eexists [_]. split; [done|]. split; [by repeat constructor|].
      split; [done|]. intros _. eexists []. split; [done|]. constructor.
    + apply bind_inv in Hrun as (fetched & w2 & [-> ->]%ask_inv & Hrun).
      cbn [maps trace] in *.
      assert (w' = mkWorld (maps w)
                     ((trace w
                       ++ [callUpdateResource
                             (withFinalizers (Finalizers (Meta instance) ++ [finalizer])
                                instance)])
                      ++ [callGetResource
                            (reconcile.mkNamespacedName EmptyString
                               (omName (Meta (withFinalizers
                                  (Finalizers (Meta instance) ++ [finalizer]) instance))))]))
        as ->.
      { destruct (GetResource env _ _); by apply ret_inv in Hrun as [_ ->]. }
      split; [done|]. eexists [_; _]. cbn [trace]. rewrite <- app_assoc.
      split; [done|]. split; [by repeat constructor|]. split; [done|].
      intros _. eexists [_]. split; [done|]. constructor; [by eexists|constructor].
Qed.

End normal_runs.

Lemma schedule_shape {C : Type} `{Collection.collection C} (env : Env) (name : string)
    (collectionType : collector.CollectionType) (c c' : C) (r : result Time)
    (w w' : World) :
  schedule env name collectionType c w = Some ((c', r), w') →
  maps w' = maps w
  ∧ ∃ t, trace w' = trace w ++ t
         ∧ (t = [callNow] ∨ t = [callNow; callNow]
            ∨ t = [callNow; callNow; callCollect name collectionType]).
Proof.
  intros Hrun. apply schedule_run in Hrun as [Hmaps Hcases]. split; [done|].
  destruct Hcases as [(e & _ & _ & ->) | [(next & _ & _ & Ht) | (_ & -> & _)]].
  - eexists. split; [done|]. by left.
  - destruct Ht as [-> | [_ ->]]; eexists; (split; [done|]); [by left | by right; left].
  - eexists. split; [done|]. by right; right.
Qed.

Section normal_pass.
Variable env : Env.
Implicit Types (w : World) (instance : Techsupport) (t : list Call).

(** Every way the normal pass can run: it stops with an error before the
    index is touched, or it updates the index and then either stops with a
    scheduling error or ends on a status write. *)
Lemma reconcileTechsupportNormal_run instance w res err w' :
  reconcileTechsupportNormal env instance w = Some ((res, err), w') →
  ∃ t1 t2,
    Forall (fun c => isStoreAccess c = true) t1
    ∧ Forall (fun c => isListing c = true) t2
    ∧ ((trace w' = trace w ++ t1 ++ t2 ∧ maps w' = maps w
        ∧ is_Some err ∧ res = reconcile.mkResult false 0)
       ∨ ∃ gvks updated name t3,
           ObjectKinds env TechsupportType = Ok gvks
           ∧ maps w' = (updateMaps gvks updated (maps w)).2
           ∧ (t3 = [callNow] ∨ t3 = [callNow; callNow]
              ∨ t3 = [callNow; callNow; callCollect name collector.Techsupport])
           ∧ ((trace w'
               = trace w ++ t1 ++ t2
                 ++ [callGetResult name collector.Techsupport; callNow] ++ t3
               ∧ is_Some err ∧ res = reconcile.mkResult false 0)
              ∨ ∃ obj,
                  trace w'
                  = trace w ++ t1 ++ t2
                    ++ [callGetResult name collector.Techsupport; callNow] ++ t3
                    ++ [callUpdateResourceStatus obj]
                  ∧ err = None
                  ∧ (res = reconcile.mkResult true requeueAfter
                     ∨ (reconcile.Requeue res = false
                        ∧ UpdateResourceStatus env
                            (trace w ++ t1 ++ t2
                             ++ [callGetResult name collector.Techsupport; callNow] ++ t3)
                            obj = None
                        ∧ isCollectionInProgress (LastRunStatus (Status obj)) = false)))).
Proof.
  unfold reconcileTechsupportNormal. intros Hrun.
  apply bind_inv in Hrun as ([inst1 e1] & w1 & Hadd & Hrun).
  apply addFinalizer_run in Hadd as (Hm1 & t1 & Ht1 & Hs1 & _).
  exists t1.
  destruct e1 as [e1|].
  { apply ret_inv in Hrun as [[= -> ->] ->]. exists [].
    split; [done|]. split; [constructor|]. left.
    rewrite app_nil_r. split; [done|]. split; [done|]. split; [by eexists|done]. }
  apply bind_inv in Hrun as (matching & w2 & Hmatch & Hrun).
  apply getMatchingClusters_run in Hmatch as (Hm2 & t2 & Ht2 & Hs2).
  exists t2. split; [done|]. split; [done|].
  assert (trace w2 = trace w ++ t1 ++ t2) as Htr2
    by (by rewrite Ht2, Ht1, <- app_assoc).
  destruct matching as [matchingClusters|e2].
  2:{ apply ret_inv in Hrun as [[= -> ->] ->]. left.
      split; [done|]. split; [congruence|]. split; [by eexists|done]. }
  apply bind_inv in Hrun as (gvks & w3 & [Hk ->]%kindsOf_inv & Hrun).
  apply bind_inv in Hrun as (inst2 & w4 & [-> ->]%locked_inv & Hrun).
  apply bind_inv in Hrun as (result & w5 & [-> ->]%ask_inv & Hrun).
  apply bind_inv in Hrun as (inst3 & w6 & [_ ->]%orPanic_inv & Hrun).
  apply bind_inv in Hrun as (now & w7 & [-> ->]%ask_inv & Hrun).
  apply bind_inv in Hrun as ([inst4 nextRun] & w8 & Hsched & Hrun).
  apply schedule_shape in Hsched as (Hm8 & t3 & Ht8 & Hs8).
  cbn [maps trace] in *.
  right. eexists gvks, _, _, t3. split; [done|].
  assert (trace w8
          = trace w ++ t1 ++ t2
            ++ [callGetResult
                  (omName (Meta (updateMaps gvks
                     (withMatchingClusterRefs matchingClusters inst1) (maps w2)).1))
                  collector.Techsupport; callNow] ++ t3) as Htr8.
  { rewrite Ht8, Htr2. rewrite <- !app_assoc. done. }
  destruct nextRun as [nextRun|e3].
  2:{ apply ret_inv in Hrun as [[= -> ->] ->].
      split; [by rewrite Hm8, Hm2, Hm1|]. split; [exact Hs8|].
      left. split; [exact Htr8|]. split; [by eexists | done]. }
  apply bind_inv in Hrun as (e4 & w9 & [-> ->]%ask_inv & Hrun).
  cbn [maps trace] in *.
  split; [|split; [exact Hs8|]].
  { assert (maps w' = maps w8) as ->; [|by rewrite Hm8, Hm2, Hm1].
    destruct (UpdateResourceStatus env (trace w8) inst4);
      [|destruct (isCollectionInProgress _)];
      by apply ret_inv in Hrun as [_ ->]. }
  right. exists inst4.
  assert (trace w' = trace w8 ++ [callUpdateResourceStatus inst4]) as ->.
  { destruct (UpdateResourceStatus env (trace w8) inst4);
      [|destruct (isCollectionInProgress _)];
      by apply ret_inv in Hrun as [_ ->]. }
  split; [rewrite Htr8; by rewrite <- !app_assoc|].
  rewrite <- Htr8.
  destruct (UpdateResourceStatus env (trace w8) inst4) as [e5|].
  { apply ret_inv in Hrun as [[= -> ->] _]. split; [done|]. by left. }
  destruct (isCollectionInProgress (LastRunStatus (Status inst4))) eqn:Hprog.
  { apply ret_inv in Hrun as [[= -> ->] _]. split; [done|]. by left. }
  apply ret_inv in Hrun as [[= -> ->] _]. split; [done|]. right. done.
Qed.

End normal_pass.

Section pass_properties.
Variable env : Env.
Implicit Types (w : World) (instance : Techsupport) (t : list Call).

Lemma Forall_other_class (p q : Call -> bool) t :
  (∀ c, p c = true → q c = false) →
  Forall (fun c => p c = true) t → Forall (fun c => q c = false) t.
Proof. intros Hpq Hall. eapply Forall_impl; [exact Hall | exact Hpq]. Qed.


Lemma reconcileDelete_run instance collectionType storage finalizer w r w' :
  reconcileDelete env instance collectionType storage finalizer w = Some (r, w') →
  maps w' = maps w
  ∧ ∃ t, trace w'
         = trace w ++ callCleanupEntries storage (omName (Meta instance)) collectionType
                      :: t
         ∧ (t = [] ∧ is_Some r.2.2
            ∨ t = [callUpdateResource (withoutFinalizer instance finalizer)]).
Proof.
  unfold reconcileDelete.
  intros ([inst1 e1] & w1 & Hrm & Hrun)%bind_inv.
  destruct (CleanupEntries env (trace w) storage (omName (Meta instance)) collectionType)
    as [e|] eqn:Hpurge.
  - rewrite (removeQueuedJobsAndFinalizer_failed env _ _ _ _ _ _ Hpurge) in Hrm.
    injection Hrm as <- <- <-.
    apply ret_inv in Hrun as [-> ->]. split; [done|].
    exists []. split; [done|]. left. split; [done|]. by eexists.
  - rewrite (removeQueuedJobsAndFinalizer_done env _ _ _ _ _ Hpurge) in Hrm.
    injection Hrm as <- <- <-.
    apply bind_inv in Hrun as (e2 & w2 & [-> ->]%ask_inv & Hrun).
    cbn [maps trace] in *.
    assert (w' = mkWorld (maps w)
                   ((trace w
                     ++ [callCleanupEntries storage (omName (Meta instance)) collectionType])
                    ++ [callUpdateResource (withoutFinalizer instance finalizer)])) as ->.
    { destruct (UpdateResource env _ _); by apply ret_inv in Hrun as [_ ->]. }
    split; [done|]. eexists. cbn [trace]. rewrite <- app_assoc.
    split; [done|]. by right.
Qed.

End pass_properties.

(** ** Properties of whole passes *)





(** A pass over a request that is being deleted makes two or three calls
    after the fetch: the purge and at most one update of the object, which
    then carries no finalizer. It never reads the clock, lists clusters,
    asks for a result, dispatches a collection or writes status. *)
Theorem terminating_pass_calls (env : Env) (req : reconcile.Request) (w w' : World)
    (instance : Techsupport) (r : reconcile.Result * option error) :
  let key := reconcile.RequestNamespacedName req in
  let purge := callCleanupEntries (Storage (Spec instance)) (omName (Meta instance))
                 collector.Techsupport in
  GetResource env (trace w) key = Ok instance →
  IsZero (DeletionTimestamp (Meta instance)) = false →
  TechsupportReconciler env req w = Some (r, w') →
  trace w' = trace w ++ [callGetResource key; purge]
  ∨ trace w'
    = trace w ++ [callGetResource key; purge;
                  callUpdateResource
                    (withoutFinalizer instance (TechsupportFinalizer env))].
Proof.
  intros key purge Hget Hdel. unfold TechsupportReconciler. intros Hrun.
  apply bind_inv in Hrun as (fetched & w1 & [-> ->]%ask_inv & Hrun).
  fold key in Hrun. rewrite Hget, Hdel in Hrun. cbn [negb] in Hrun.
  apply bind_inv in Hrun as ([inst1 [res err]] & w2 & Hrd & Hrun).
  apply reconcileDelete_run in Hrd as (_ & t & Ht & Hshape).
  cbn [trace] in Ht.
  assert (trace w' = trace w2) as ->.
  { destruct err as [e|].
    - by apply ret_inv in Hrun as [_ ->].
    - apply bind_inv in Hrun as (gvks & w3 & [_ ->]%kindsOf_inv & Hrun).
      apply bind_inv in Hrun as (inst2 & w4 & [-> ->]%locked_inv & Hrun).
      by apply ret_inv in Hrun as [_ ->]. }
  rewrite Ht, <- app_assoc. fold purge.
  destruct Hshape as [[-> _] | ->]; [by left | by right].
Qed.

Lemma terminating_pass_calls_witness :
  trace (mkWorld (maps exampleWorld)
           [callGetResource (reconcile.RequestNamespacedName exampleRequest);
            callCleanupEntries (Storage (Spec terminatingTechsupport))
              (omName (Meta terminatingTechsupport)) collector.Techsupport])
  = trace exampleWorld
    ++ [callGetResource (reconcile.RequestNamespacedName exampleRequest);
        callCleanupEntries (Storage (Spec terminatingTechsupport))
          (omName (Meta terminatingTechsupport)) collector.Techsupport]
  ∨ trace (mkWorld (maps exampleWorld)
             [callGetResource (reconcile.RequestNamespacedName exampleRequest);
              callCleanupEntries (Storage (Spec terminatingTechsupport))
                (omName (Meta terminatingTechsupport)) collector.Techsupport])
    = trace exampleWorld
      ++ [callGetResource (reconcile.RequestNamespacedName exampleRequest);
          callCleanupEntries (Storage (Spec terminatingTechsupport))
            (omName (Meta terminatingTechsupport)) collector.Techsupport;
          callUpdateResource
            (withoutFinalizer terminatingTechsupport
               (TechsupportFinalizer
                  (exampleEnv terminatingTechsupport
                     (Some (errorString "storage unreachable")))))].
Proof.
  apply (terminating_pass_calls
           (exampleEnv terminatingTechsupport (Some (errorString "storage unreachable")))
           exampleRequest exampleWorld _ terminatingTechsupport
           (reconcile.mkResult false 0, Some (errorString "storage unreachable"))).
  - reflexivity.
  - reflexivity.
  - reflexivity.
Defined.

(** Status is written at the very end or not at all. A normal pass that
    returns no error has made exactly one status write, as its last call; a
    normal pass that returns an error has made none and asks for no
    requeue of its own. *)
Theorem normal_pass_status_write (env : Env) (instance : Techsupport) (w w' : World)
    (res : reconcile.Result) (err : option error) :
  reconcileTechsupportNormal env instance w = Some ((res, err), w') →
  (err = None →
   ∃ t obj, trace w' = trace w ++ t ++ [callUpdateResourceStatus obj]
            ∧ Forall (fun c => isStatusUpdate c = false) t)
  ∧ (is_Some err →
     res = reconcile.mkResult false 0
     ∧ ∃ t, trace w' = trace w ++ t ∧ Forall (fun c => isStatusUpdate c = false) t).
Proof.
  intros Hrun.
  apply reconcileTechsupportNormal_run in Hrun as (t1 & t2 & Hs1 & Hs2 & Hcases).
  pose proof (Forall_other_class isStoreAccess isStatusUpdate t1
                ltac:(by intros []) Hs1) as Hp1.
  pose proof (Forall_other_class isListing isStatusUpdate t2
                ltac:(by intros []) Hs2) as Hp2.
  destruct Hcases as [(Ht & _ & Herr & Hres)
                     | (gvks & updated & name & t3 & _ & _ & Hs3 & Hcases)].
  - split.
    + intros ->. by destruct Herr.
    + intros _. split; [done|]. eexists. split; [exact Ht|]. by apply Forall_app.
  - assert (Forall (fun c => isStatusUpdate c = false) t3) as Hp3.
    { destruct Hs3 as [-> | [-> | ->]]; by repeat constructor. }
    destruct Hcases as [(Ht & Herr & Hres) | (obj & Ht & -> & _)].
    + split.
      * intros ->. by destruct Herr.
      * intros _. split; [done|]. eexists. split; [exact Ht|].
        repeat (apply Forall_app; split); try done. by repeat constructor.
    + split.
      * intros _. exists (t1 ++ t2
                          ++ [callGetResult name collector.Techsupport; callNow] ++ t3), obj.
        split; [rewrite Ht; by rewrite <- !app_assoc|].
        repeat (apply Forall_app; split); try done. by repeat constructor.
      * intros [? [=]].
Qed.

Lemma normal_pass_status_write_witness :
  (Some (errorString "conflict") = None →
   ∃ t obj, trace (mkWorld emptyMaps
                     [callUpdateResource
                        (withFinalizers [exampleFinalizer] requestAUnmatched)])
            = trace (mkWorld emptyMaps []) ++ t ++ [callUpdateResourceStatus obj]
            ∧ Forall (fun c => isStatusUpdate c = false) t)
  ∧ (is_Some (Some (errorString "conflict")) →
     reconcile.mkResult false 0 = reconcile.mkResult false 0
     ∧ ∃ t, trace (mkWorld emptyMaps
                     [callUpdateResource
                        (withFinalizers [exampleFinalizer] requestAUnmatched)])
            = trace (mkWorld emptyMaps []) ++ t
            ∧ Forall (fun c => isStatusUpdate c = false) t).
Proof.
  apply (normal_pass_status_write conflictEnv requestAUnmatched (mkWorld emptyMaps [])).
  vm_compute. reflexivity.
Defined.

(** A status write that the store refuses is not reported as an error, and
    a collection still in progress is polled: in both cases the pass
    returns no error and asks to be run again after 20 seconds, whatever the
    schedule says. *)
Theorem normal_pass_requeues_after_20s (env : Env) (instance : Techsupport)
    (w w' : World) (res : reconcile.Result) (err : option error)
    (t : list Call) (obj : Techsupport) :
  reconcileTechsupportNormal env instance w = Some ((res, err), w') →
  trace w' = trace w ++ t ++ [callUpdateResourceStatus obj] →
  is_Some (UpdateResourceStatus env (trace w ++ t) obj)
  ∨ LastRunStatus (Status obj) = Some CollectionStatusInProgress →
  res = reconcile.mkResult true (20 * Second) ∧ err = None.
Proof.
  intros Hrun Ht Hwhy.
  apply reconcileTechsupportNormal_run in Hrun as (t1 & t2 & Hs1 & Hs2 & Hcases).
  pose proof (Forall_other_class isStoreAccess isStatusUpdate t1
                ltac:(by intros []) Hs1) as Hp1.
  pose proof (Forall_other_class isListing isStatusUpdate t2
                ltac:(by intros []) Hs2) as Hp2.
  assert (∀ l, Forall (fun c => isStatusUpdate c = false) l →
               trace w' = trace w ++ l → False) as Hnone.
  { intros l Hl Hl'. rewrite Ht in Hl'. apply app_inv_head in Hl'. subst l.
    apply Forall_app in Hl as [_ Hl]. by inversion Hl. }
  destruct Hcases as [(Ht' & _) | (gvks & updated & name & t3 & _ & _ & Hs3 & Hcases)].
  { exfalso. apply (Hnone (t1 ++ t2)); [by apply Forall_app|done]. }
  assert (Forall (fun c => isStatusUpdate c = false) t3) as Hp3.
  { destruct Hs3 as [-> | [-> | ->]]; by repeat constructor. }
  destruct Hcases as [(Ht' & _) | (obj' & Ht' & -> & Hres)].
  { exfalso. eapply Hnone; [|exact Ht'].
    repeat (apply Forall_app; split); try done. by repeat constructor. }
  rewrite Ht in Ht'. apply app_inv_head in Ht'.
  replace (t1 ++ t2 ++ [callGetResult name collector.Techsupport; callNow]
           ++ t3 ++ [callUpdateResourceStatus obj'])
    with ((t1 ++ t2 ++ [callGetResult name collector.Techsupport; callNow] ++ t3)
          ++ [callUpdateResourceStatus obj'])
    in Ht' by (by rewrite <- !app_assoc).
  apply app_inj_tail in Ht' as [-> [= ->]].
  destruct Hres as [-> | (_ & Hok & Hprog)]; [done|].
  exfalso. destruct Hwhy as [[e He] | Hin].
  - rewrite Hok in He. done.
  - rewrite Hin in Hprog. done.
Qed.

Lemma normal_pass_requeues_after_20s_witness :
  reconcileTechsupportNormal inProgressEnv settledTechsupport (mkWorld emptyMaps [])
  = Some ((reconcile.mkResult true (20 * Second), None),
          mkWorld (updateMaps [techsupportGVK] settledTechsupport emptyMaps).2
            ([] ++ [callListClusters; callListSveltosClusters;
                    callGetResult "ts1" collector.Techsupport; callNow; callNow]
                ++ [callUpdateResourceStatus pollingTechsupport]))
  ∧ reconcile.mkResult true (20 * Second) = reconcile.mkResult true (20 * Second)
  ∧ @None error = None.
Proof.
  assert (reconcileTechsupportNormal inProgressEnv settledTechsupport
            (mkWorld emptyMaps [])
          = Some ((reconcile.mkResult true (20 * Second), None),
                  mkWorld (updateMaps [techsupportGVK] settledTechsupport emptyMaps).2
                    ([] ++ [callListClusters; callListSveltosClusters;
                            callGetResult "ts1" collector.Techsupport; callNow; callNow]
                        ++ [callUpdateResourceStatus pollingTechsupport]))) as Hrun
    by (vm_compute; reflexivity).
  split; [exact Hrun|].
  apply (normal_pass_requeues_after_20s inProgressEnv settledTechsupport
           (mkWorld emptyMaps []) _ _ _
           [callListClusters; callListSveltosClusters;
            callGetResult "ts1" collector.Techsupport; callNow; callNow]
           pollingTechsupport Hrun).
  - reflexivity.
  - right. reflexivity.
Defined.

(** [addFinalizer] writes to the store only when it has to. With the
    finalizer already on the object it makes no call, returns the object as
    it is and no error. Without it, its first call is the update of the
    object with the finalizer appended to the ones it had, and whatever
    follows is a fetch. The maps are never touched. *)
Theorem addFinalizer_writes_only_when_needed (env : Env) (instance instance' : Techsupport)
    (finalizer : string) (err : option error) (w w' : World) :
  addFinalizer env instance finalizer w = Some ((instance', err), w') →
  maps w' = maps w
  ∧ (finalizer ∈ Finalizers (Meta instance) →
     trace w' = trace w ∧ instance' = instance ∧ err = None)
  ∧ (finalizer ∉ Finalizers (Meta instance) →
     ∃ rest,
       trace w'
       = trace w
         ++ callUpdateResource
              (withFinalizers (Finalizers (Meta instance) ++ [finalizer]) instance)
            :: rest
       ∧ Forall (fun c => ∃ key, c = callGetResource key) rest).
Proof.
  intros Hrun.
  apply addFinalizer_run in Hrun as (Hmaps & t & Ht & _ & Hpresent & Habsent).
  split; [done|]. unfold controllerutil.ContainsFinalizer in *. split.
  - intros Hin. destruct Hpresent as (-> & -> & ->).
    + by apply bool_decide_eq_true.
    + by rewrite Ht, app_nil_r.
  - intros Hnin. destruct Habsent as (rest & -> & Hrest).
    + by apply bool_decide_eq_false.
    + by exists rest.
Qed.

Lemma addFinalizer_writes_only_when_needed_witness :
  maps (mkWorld emptyMaps []) = maps (mkWorld emptyMaps [])
  ∧ (exampleFinalizer ∈ Finalizers (Meta settledTechsupport) →
     trace (mkWorld emptyMaps []) = trace (mkWorld emptyMaps [])
     ∧ settledTechsupport = settledTechsupport ∧ @None error = None)
  ∧ (exampleFinalizer ∉ Finalizers (Meta settledTechsupport) →
     ∃ rest,
       trace (mkWorld emptyMaps [])
       = trace (mkWorld emptyMaps [])
         ++ callUpdateResource
              (withFinalizers (Finalizers (Meta settledTechsupport) ++ [exampleFinalizer])
                 settledTechsupport)
            :: rest
       ∧ Forall (fun c => ∃ key, c = callGetResource key) rest).
Proof.
  apply (addFinalizer_writes_only_when_needed conflictEnv settledTechsupport
           settledTechsupport exampleFinalizer None (mkWorld emptyMaps [])
           (mkWorld emptyMaps [])).
  reflexivity.
Defined.
